(** * Internship selection platform: a shallow embedding of [app2.py]

    The Streamlit script keeps one dataframe and six status containers in
    [st.session_state]; every button or select box is a handler that
    updates them.  The dataframe is modelled as named columns over rows,
    Python sets as [gset], Python dicts as [gmap], Python exceptions as an
    explicit result type. *)

From Stdlib Require Import ZArith QArith List Ascii String.
From stdpp Require Import base gmap sets list strings pretty.

#[local] Set Warnings "-clear-no-such-hyp".

Local Open Scope string_scope.
Local Open Scope list_scope.
Local Open Scope Z_scope.

(** ** Python exceptions *)

Inductive exn : Type :=
  | KeyError (key : string)
  | ZeroDivisionError
  | ReError (pattern : string)
  | EmptyDataError.

Inductive result (A : Type) : Type :=
  | Ok (a : A)
  | Raise (e : exn).

Arguments Ok {A} a.
Arguments Raise {A} e.

Definition result_bind {A B : Type} (f : A -> result B) (m : result A) : result B :=
  match m with
  | Ok a => f a
  | Raise e => Raise e
  end.

#[global] Instance result_ret : MRet result := fun _ a => Ok a.
#[global] Instance result_mbind : MBind result := fun _ _ f m => result_bind f m.

Definition is_ok {A : Type} (m : result A) : bool :=
  match m with Ok _ => true | Raise _ => false end.

(** ** Python [str]

    A [str] is held as its UTF-8 bytes.  [needle in hay] is substring
    search; [s.strip()] removes the characters for which [str.isspace]
    holds from both ends. *)

Fixpoint py_in (needle hay : string) : bool :=
  if String.prefix needle hay then true
  else match hay with
       | EmptyString => false
       | String _ hay' => py_in needle hay'
       end.

(** The code points Python treats as white space, by the bytes that
    encode them: the ASCII ones (U+0009..U+000D, U+001C..U+0020),
    U+0085 and U+00A0 (C2 85, C2 A0), U+1680 (E1 9A 80), U+2000..U+200A,
    U+2028, U+2029, U+202F (E2 80 ..), U+205F (E2 81 9F) and U+3000
    (E3 80 80). *)

Definition is_space1 (a : ascii) : bool :=
  let n := N_of_ascii a in
  ((9 <=? n) && (n <=? 13) || (28 <=? n) && (n <=? 32))%N.

Definition is_space2 (a b : ascii) : bool :=
  let m := N_of_ascii a in
  let n := N_of_ascii b in
  ((m =? 194) && ((n =? 133) || (n =? 160)))%N.

Definition is_space3 (a b c : ascii) : bool :=
  let l := N_of_ascii a in
  let m := N_of_ascii b in
  let n := N_of_ascii c in
  ((l =? 225) && (m =? 154) && (n =? 128)
   || (l =? 226) && (m =? 128)
      && ((128 <=? n) && (n <=? 138) || (n =? 168) || (n =? 169) || (n =? 175))
   || (l =? 226) && (m =? 129) && (n =? 159)
   || (l =? 227) && (m =? 128) && (n =? 128))%N.

Fixpoint lstrip (s : string) : string :=
  match s with
  | EmptyString => EmptyString
  | String a s1 =>
      if is_space1 a then lstrip s1
      else match s1 with
           | EmptyString => s
           | String b s2 =>
               if is_space2 a b then lstrip s2
               else match s2 with
                    | EmptyString => s
                    | String c s3 => if is_space3 a b c then lstrip s3 else s
                    end
           end
  end.

(** The same scan from the right end, on the reversed bytes. *)
Fixpoint lstrip_rev (s : string) : string :=
  match s with
  | EmptyString => EmptyString
  | String a s1 =>
      if is_space1 a then lstrip_rev s1
      else match s1 with
           | EmptyString => s
           | String b s2 =>
               if is_space2 b a then lstrip_rev s2
               else match s2 with
                    | EmptyString => s
                    | String c s3 => if is_space3 c b a then lstrip_rev s3 else s
                    end
           end
  end.

Definition rstrip (s : string) : string := String.rev (lstrip_rev (String.rev s)).

Definition strip (s : string) : string := rstrip (lstrip s).

(** Truth value of a [str]: non-empty. *)
Definition str_truthy (s : string) : bool :=
  match s with EmptyString => false | String _ _ => true end.

(** A text made of white-space characters only (the empty text included). *)
Fixpoint whitespace_only (s : string) : bool :=
  match s with
  | EmptyString => true
  | String a s1 =>
      if is_space1 a then whitespace_only s1
      else match s1 with
           | EmptyString => false
           | String b s2 =>
               if is_space2 a b then whitespace_only s2
               else match s2 with
                    | EmptyString => false
                    | String c s3 => is_space3 a b c && whitespace_only s3
                    end
           end
  end.

(** ** The dataframe

    A cell is a missing value, a text or an integer.  A frame has its
    column labels in order and one map from label to cell per row, in
    index order. *)

Inductive cell : Type :=
  | NaN
  | Str (s : string)
  | Int (n : Z).

#[global] Instance cell_eq_dec : EqDecision cell.
Proof. solve_decision. Defined.

Record DataFrame : Type := mkDataFrame {
  columns : list string;
  rows : list (gmap string cell)
}.

Definition len (frame : DataFrame) : Z := Z.of_nat (length (rows frame)).

(** The cell of a row under a label of the frame. *)
Definition loc (r : gmap string cell) (c : string) : cell := default NaN (r !! c).

(** [frame[c]]: the column as a series; an unknown label raises. *)
Definition getitem (frame : DataFrame) (c : string) : result (list cell) :=
  if decide (c ∈ columns frame)
  then Ok (map (fun r => loc r c) (rows frame))
  else Raise (KeyError c).

(** [frame[mask]]: the rows whose mask entry is true, in order. *)
Fixpoint select (rs : list (gmap string cell)) (mask : list bool)
  : list (gmap string cell) :=
  match rs, mask with
  | r :: rs', b :: mask' => if b then r :: select rs' mask' else select rs' mask'
  | _, _ => []
  end.

Definition getitem_mask (frame : DataFrame) (mask : list bool) : DataFrame :=
  {| columns := columns frame; rows := select (rows frame) mask |}.

(** [frame[c] = values]: an existing column is overwritten in place, a new
    one is appended after the last column. *)
Definition setitem (frame : DataFrame) (c : string) (values : list cell) : DataFrame :=
  {| columns := if decide (c ∈ columns frame) then columns frame
                else columns frame ++ [c];
     rows := zip_with (fun r v => <[c := v]> r) (rows frame) values |}.

(** [row[c]] on a row handed out by [iterrows]. *)
Definition row_getitem (r : gmap string cell) (c : string) : result cell :=
  match r !! c with
  | Some v => Ok v
  | None => Raise (KeyError c)
  end.

(** [row['ID']]: [load_data] numbers the rows, so the cell is an integer;
    any other content is treated like an absent label. *)
Definition row_id (r : gmap string cell) : result Z :=
  match r !! "ID" with
  | Some (Int n) => Ok n
  | _ => Raise (KeyError "ID")
  end.

(** [str(v)] of a cell, as [astype(str)] and [str(row[c])] give it. *)
Definition astype_str (v : cell) : string :=
  match v with
  | NaN => "nan"
  | Str s => s
  | Int n => pretty n
  end.

(** [range(n)] as a column of integer cells. *)
Definition range_cells (n : nat) : list cell := map (fun i => Int (Z.of_nat i)) (seq 0 n).

(** [load_data]: the parsed table gets an [ID] column numbering the rows
    from 0; a failure of [pd.read_csv] is caught and gives [None]. *)
Definition load_data (parsed : result DataFrame) : option DataFrame :=
  match parsed with
  | Ok frame => Some (setitem frame "ID" (range_cells (length (rows frame))))
  | Raise _ => None
  end.

(** ** Session state *)

Record Remark : Type := mkRemark {
  timestamp : string;
  remark : string
}.

Record session_state : Type := mkState {
  df : option DataFrame;
  shortlisted : gset Z;
  rejected : gset Z;
  remarks : gmap Z (list Remark);
  contact_status : gmap Z string;
  interview_scheduled : gmap Z string;
  ratings : gmap Z Z
}.

(** The state the script initialises on the first run. *)
Definition initial_state : session_state :=
  {| df := None; shortlisted := ∅; rejected := ∅; remarks := ∅;
     contact_status := ∅; interview_scheduled := ∅; ratings := ∅ |}.

(** ** Helper functions of the script *)

Definition get_status (st : session_state) (row_id : Z) : string :=
  if decide (row_id ∈ shortlisted st) then "✅ Shortlisted"
  else if decide (row_id ∈ rejected st) then "❌ Rejected"
  else "⏳ Pending".

(** [get_status] applied to a value of the [ID] column. *)
Definition get_status_cell (st : session_state) (v : cell) : string :=
  match v with
  | Int n => get_status st n
  | _ => "⏳ Pending"
  end.

(** [d.get(v, default)] for a value of the [ID] column. *)
Definition dict_get {V : Type} (m : gmap Z V) (v : cell) (d : V) : V :=
  match v with
  | Int n => default d (m !! n)
  | _ => d
  end.

Definition get_contact_status (st : session_state) (row_id : Z) : string :=
  default "Not Contacted" (contact_status st !! row_id).

Definition get_remarks (st : session_state) (row_id : Z) : list Remark :=
  default [] (remarks st !! row_id).

(** [add_remark]: no check on the text; [now] is the formatted clock. *)
Definition add_remark (now : string) (row_id : Z) (text : string)
    (st : session_state) : session_state :=
  {| df := df st;
     shortlisted := shortlisted st;
     rejected := rejected st;
     remarks := <[row_id := get_remarks st row_id
                              ++ [{| timestamp := now; remark := text |}]]> (remarks st);
     contact_status := contact_status st;
     interview_scheduled := interview_scheduled st;
     ratings := ratings st |}.

(** Membership of a column value in a set or among the keys of a dict
    ([isin]): only an integer cell can be a member. *)
Definition isin_set (s : gset Z) (v : cell) : bool :=
  match v with
  | Int n => bool_decide (n ∈ s)
  | _ => false
  end.

Definition isin_keys {V : Type} (m : gmap Z V) (v : cell) : bool :=
  match v with
  | Int n => bool_decide (is_Some (m !! n))
  | _ => false
  end.

(** Column labels the script reads. *)
Definition col_gender : string := "Gender".
Definition col_qualification : string := "Your highest qualification".
Definition col_internship : string := "Which type of internship would you prefer?".
Definition col_laptop : string := "Do you have a laptop?".
Definition col_smartphone : string := "Do you have a smartphone?".
Definition col_district : string := "District of Residence".
Definition col_hours : string := "Hours of internship you can provide".
Definition col_age : string := "Your age as on date of application".

(** The [filters] dict built from the sidebar widgets. *)
Record Filters : Type := mkFilters {
  f_search : string;
  f_gender : string;
  f_qualification : string;
  f_internship_type : string;
  f_district : string;
  f_laptop : string;
  f_smartphone : string;
  f_availability : string;
  f_min_age : option Z;
  f_max_age : option Z;
  f_view_mode : string;
  f_contact_status : string;
  f_interview_status : string
}.

(** Truth value of [None] or an [int]. *)
Definition truthy (v : option Z) : bool :=
  match v with
  | Some n => negb (n =? 0)
  | None => false
  end.

Record date : Type := mkDate { year : Z; month : Z; day : Z }.

(** Comparison of the pairs [(month, day)], as Python orders tuples. *)
Definition month_day_lt (a b : date) : bool :=
  (month a <? month b) || ((month a =? month b) && (day a <? day b)).

(** An age as the [Age] column holds it: [None] becomes a missing value. *)
Definition age_cell (a : option Z) : cell :=
  match a with
  | Some n => Int n
  | None => NaN
  end.

(** [series >= bound] and [series <= bound] on one cell: a missing value
    compares false. *)
Definition cell_ge (v : cell) (bound : Z) : bool :=
  match v with
  | Int n => bound <=? n
  | _ => false
  end.

Definition cell_le (v : cell) (bound : Z) : bool :=
  match v with
  | Int n => n <=? bound
  | _ => false
  end.

Definition cell_eq_str (value : string) (v : cell) : bool := bool_decide (v = Str value).

(** ** The script

    [pd.to_datetime] with the day-month-year format (its failure or [NaT]
    is [None]), the clock [datetime.now()] and the regular-expression
    search of [Series.str.contains] belong to the libraries and are
    parameters.  [str_contains term texts] is
    [texts.str.contains(term, case=False, na=False)]: it compiles [term] as
    a regular expression and gives the boolean series of the matches, or
    raises [re.error] when [term] is no valid pattern. *)

Section Script.

Variable to_datetime : cell -> option date.
Variable today : date.
Variable str_contains : string -> list string -> result (list bool).

Definition calculate_age (age_str : cell) : option Z :=
  match age_str with
  | NaN => None
  | Str EmptyString => None
  | _ =>
      match to_datetime age_str with
      | None => None
      | Some birth_date =>
          Some (year today - year birth_date
                - (if month_day_lt today birth_date then 1 else 0))
      end
  end.

(** [frame[test(frame[c])]] *)
Definition filter_on (frame : DataFrame) (c : string) (test : cell -> bool)
  : result DataFrame :=
  series ← getitem frame c;
  mret (getitem_mask frame (map test series)).

(** [frame.astype(str)[c].str.contains(term, case=False, na=False)]: the
    lambda of the search block, on the column [c] turned into text. *)
Definition contains_column (frame : DataFrame) (term : string) (c : string)
  : result (list bool) :=
  str_contains term (map (fun r => astype_str (loc r c)) (rows frame)).

(** [frame.apply(f)]: [f] on each column in turn; the first exception
    ends the call. *)
Fixpoint apply_columns (f : string -> result (list bool)) (cols : list string)
  : result (list (list bool)) :=
  match cols with
  | [] => Ok []
  | c :: cols' =>
      series ← f c;
      rest ← apply_columns f cols';
      mret (series :: rest)
  end.

(** [.any(axis=1)] over [n] rows: a row is kept when some column has
    [True] in it. *)
Definition any_axis1 (n : nat) (series : list (list bool)) : list bool :=
  map (fun i => existsb (fun s => default false (s !! i)) series) (seq 0 n).

(** The mask of the search block. *)
Definition search_mask (frame : DataFrame) (term : string) : result (list bool) :=
  series ← apply_columns (contains_column frame term) (columns frame);
  mret (any_axis1 (length (rows frame)) series).

Definition categorical (frame : DataFrame) (c : string) (value : string)
  : result DataFrame :=
  if decide (value = "All") then Ok frame
  else filter_on frame c (cell_eq_str value).

Definition age_bound (frame : DataFrame) (bound : option Z) (cmp : cell -> Z -> bool)
  : result DataFrame :=
  match bound with
  | Some n => if truthy bound then filter_on frame "Age" (fun v => cmp v n) else Ok frame
  | None => Ok frame
  end.

(** The blocks of [apply_filters], in the order of the function body. *)

Definition search_filter (filtered_df : DataFrame) (filters : Filters)
  : result DataFrame :=
  if str_truthy (f_search filters)
  then
    mask ← search_mask filtered_df (f_search filters);
    mret (getitem_mask filtered_df mask)
  else Ok filtered_df.

Definition contact_filter (st : session_state) (filtered_df : DataFrame)
    (filters : Filters) : result DataFrame :=
  if decide (f_contact_status filters = "All") then Ok filtered_df
  else if decide (f_contact_status filters = "Contacted")
  then filter_on filtered_df "ID" (isin_keys (contact_status st))
  else if decide (f_contact_status filters = "Not Contacted")
  then filter_on filtered_df "ID" (fun v => negb (isin_keys (contact_status st) v))
  else Ok filtered_df.

Definition interview_filter (st : session_state) (filtered_df : DataFrame)
    (filters : Filters) : result DataFrame :=
  if decide (f_interview_status filters = "All") then Ok filtered_df
  else if decide (f_interview_status filters = "Scheduled")
  then filter_on filtered_df "ID" (isin_keys (interview_scheduled st))
  else if decide (f_interview_status filters = "Not Scheduled")
  then filter_on filtered_df "ID" (fun v => negb (isin_keys (interview_scheduled st) v))
  else Ok filtered_df.

(** The row with the [Age] cell the age block gives it. *)
Definition with_age (r : gmap string cell) : gmap string cell :=
  <["Age" := age_cell (calculate_age (loc r col_age))]> r.

Definition age_filter (filtered_df : DataFrame) (filters : Filters) : result DataFrame :=
  if truthy (f_min_age filters) || truthy (f_max_age filters)
  then
    series ← getitem filtered_df col_age;
    let filtered_df :=
      setitem filtered_df "Age" (map (fun v => age_cell (calculate_age v)) series) in
    filtered_df ← age_bound filtered_df (f_min_age filters) cell_ge;
    age_bound filtered_df (f_max_age filters) cell_le
  else Ok filtered_df.

Definition view_mode_filter (st : session_state) (filtered_df : DataFrame)
    (filters : Filters) : result DataFrame :=
  if decide (f_view_mode filters = "Shortlisted")
  then filter_on filtered_df "ID" (isin_set (shortlisted st))
  else if decide (f_view_mode filters = "Rejected")
  then filter_on filtered_df "ID" (isin_set (rejected st))
  else if decide (f_view_mode filters = "Pending")
  then filter_on filtered_df "ID"
         (fun v => negb (isin_set (shortlisted st) v) && negb (isin_set (rejected st) v))
  else Ok filtered_df.

Definition apply_filters (st : session_state) (df : DataFrame) (filters : Filters)
  : result DataFrame :=
  let filtered_df := df in
  filtered_df ← search_filter filtered_df filters;
  filtered_df ← categorical filtered_df col_gender (f_gender filters);
  filtered_df ← categorical filtered_df col_qualification (f_qualification filters);
  filtered_df ← categorical filtered_df col_internship (f_internship_type filters);
  filtered_df ← categorical filtered_df col_laptop (f_laptop filters);
  filtered_df ← categorical filtered_df col_smartphone (f_smartphone filters);
  filtered_df ← categorical filtered_df col_district (f_district filters);
  filtered_df ← categorical filtered_df col_hours (f_availability filters);
  filtered_df ← contact_filter st filtered_df filters;
  filtered_df ← interview_filter st filtered_df filters;
  filtered_df ← age_filter filtered_df filters;
  view_mode_filter st filtered_df filters.

End Script.

(** ** Handlers

    Each handler is the body of one [if st.button(...)] or select-box
    block, as a function on the session state.  The frame of the current
    view ([filtered_df]) and the row id the widget belongs to are its
    arguments. *)

Definition set_dispositions (sh rj : gset Z) (st : session_state) : session_state :=
  {| df := df st; shortlisted := sh; rejected := rj; remarks := remarks st;
     contact_status := contact_status st;
     interview_scheduled := interview_scheduled st; ratings := ratings st |}.

Definition set_contact_status (m : gmap Z string) (st : session_state) : session_state :=
  {| df := df st; shortlisted := shortlisted st; rejected := rejected st;
     remarks := remarks st; contact_status := m;
     interview_scheduled := interview_scheduled st; ratings := ratings st |}.

Definition set_interview_scheduled (m : gmap Z string) (st : session_state)
  : session_state :=
  {| df := df st; shortlisted := shortlisted st; rejected := rejected st;
     remarks := remarks st; contact_status := contact_status st;
     interview_scheduled := m; ratings := ratings st |}.

Definition set_ratings (m : gmap Z Z) (st : session_state) : session_state :=
  {| df := df st; shortlisted := shortlisted st; rejected := rejected st;
     remarks := remarks st; contact_status := contact_status st;
     interview_scheduled := interview_scheduled st; ratings := m |}.

Definition set_df (d : option DataFrame) (st : session_state) : session_state :=
  {| df := d; shortlisted := shortlisted st; rejected := rejected st;
     remarks := remarks st; contact_status := contact_status st;
     interview_scheduled := interview_scheduled st; ratings := ratings st |}.

(** [shortlisted.add(id); rejected.discard(id)] *)
Definition shortlist (row_id : Z) (st : session_state) : session_state :=
  set_dispositions ({[row_id]} ∪ shortlisted st) (rejected st ∖ {[row_id]}) st.

(** [rejected.add(id); shortlisted.discard(id)] *)
Definition reject (row_id : Z) (st : session_state) : session_state :=
  set_dispositions (shortlisted st ∖ {[row_id]}) ({[row_id]} ∪ rejected st) st.

(** [shortlisted.discard(id); rejected.discard(id)] *)
Definition reset_disposition (row_id : Z) (st : session_state) : session_state :=
  set_dispositions (shortlisted st ∖ {[row_id]}) (rejected st ∖ {[row_id]}) st.

Definition contact_options : list string :=
  ["Not Contacted"; "Called - No Answer"; "Called - Interested";
   "Called - Not Interested"; "Email Sent"; "Follow-up Needed"].

(** The contact select box of a card: [choice] is the position picked. *)
Definition contact_select (row_id : Z) (choice : nat) (st : session_state)
  : session_state :=
  let current_contact := get_contact_status st row_id in
  match contact_options !! choice with
  | Some new_contact =>
      if decide (new_contact = current_contact) then st
      else set_contact_status (<[row_id := new_contact]> (contact_status st)) st
  | None => st
  end.

Definition rating_options : list Z := [0; 1; 2; 3; 4; 5].

Definition rating_select (row_id : Z) (choice : nat) (st : session_state)
  : session_state :=
  match rating_options !! choice with
  | Some new_rating =>
      if decide (new_rating = default 0 (ratings st !! row_id)) then st
      else set_ratings (<[row_id := new_rating]> (ratings st)) st
  | None => st
  end.

(** The Schedule button exists only while no interview is set, the Cancel
    button only while one is. *)
Definition schedule_click (row_id : Z) (interview_date : string) (st : session_state)
  : session_state :=
  match interview_scheduled st !! row_id with
  | None => set_interview_scheduled (<[row_id := interview_date]> (interview_scheduled st)) st
  | Some _ => st
  end.

Definition cancel_click (row_id : Z) (st : session_state) : session_state :=
  match interview_scheduled st !! row_id with
  | Some _ => set_interview_scheduled (delete row_id (interview_scheduled st)) st
  | None => st
  end.

(** What a handler shows to the reviewer. *)
Inductive message : Type :=
  | Success (text : string)
  | Warning (text : string)
  | Info (text : string)
  | Error (text : string).

(** The caller is told of a failure when some message is an error. *)
Definition reports_error (messages : list message) : bool :=
  existsb (fun m => match m with Error _ => true | _ => false end) messages.

(** The Save button under the remark box. *)
Definition save_remark_click (now : string) (row_id : Z) (new_remark : string)
    (st : session_state) : session_state * list message :=
  if str_truthy (strip new_remark)
  then (add_remark now row_id new_remark st, [Success "Remark saved!"])
  else (st, []).

(** [for idx, row in frame.iterrows(): body]: an exception in the body
    ends the handler; what earlier rows changed stays in the session. *)
Fixpoint iterrows (body : gmap string cell -> session_state -> result session_state)
    (rs : list (gmap string cell)) (st : session_state) : session_state :=
  match rs with
  | [] => st
  | r :: rs' =>
      match body r st with
      | Ok st' => iterrows body rs' st'
      | Raise _ => st
      end
  end.

Definition mark_shortlisted_email_sent (st : session_state) : session_state :=
  set_contact_status
    (set_fold (fun id m => <[id := "Email Sent"]> m) (contact_status st) (shortlisted st))
    st.

Definition mark_filtered_no_answer (filtered_df : DataFrame) (st : session_state)
  : session_state :=
  iterrows (fun row st =>
              id ← row_id row;
              mret (set_contact_status (<[id := "Called - No Answer"]> (contact_status st)) st))
           (rows filtered_df) st.

(** The auto-shortlist buttons: rows that meet the criterion are
    shortlisted. *)
Definition auto_shortlist (criterion : gmap string cell -> session_state -> result bool)
    (filtered_df : DataFrame) (st : session_state) : session_state :=
  iterrows (fun row st =>
              b ← criterion row st;
              if b : bool then id ← row_id row; mret (shortlist id st)
              else mret st)
           (rows filtered_df) st.

Definition has_laptop_and_smartphone (row : gmap string cell) (st : session_state)
  : result bool :=
  laptop ← row_getitem row col_laptop;
  if cell_eq_str "Yes" laptop
  then phone ← row_getitem row col_smartphone; mret (cell_eq_str "Yes" phone)
  else mret false.

Definition full_time_available (row : gmap string cell) (st : session_state)
  : result bool :=
  hours ← row_getitem row col_hours;
  mret (py_in "Full" (astype_str hours)).

Definition graduate_or_engineer (row : gmap string cell) (st : session_state)
  : result bool :=
  qual ← row_getitem row col_qualification;
  mret (cell_eq_str "Graduate" qual || cell_eq_str "Engineer" qual).

Definition rated_four_plus (row : gmap string cell) (st : session_state)
  : result bool :=
  id ← row_id row;
  mret (4 <=? default 0 (ratings st !! id)).

Definition shortlist_all_filtered (filtered_df : DataFrame) (st : session_state)
  : session_state :=
  iterrows (fun row st => id ← row_id row; mret (shortlist id st)) (rows filtered_df) st.

Definition reject_all_filtered (filtered_df : DataFrame) (st : session_state)
  : session_state :=
  iterrows (fun row st => id ← row_id row; mret (reject id st)) (rows filtered_df) st.

Definition reset_filtered_to_pending (filtered_df : DataFrame) (st : session_state)
  : session_state :=
  iterrows (fun row st => id ← row_id row; mret (reset_disposition id st))
           (rows filtered_df) st.

Definition rating_map : list (string * Z) :=
  [("Engineer", 5); ("Graduate", 4); ("Post Graduate", 5); ("Diploma", 3);
   ("Intermediate", 2)].

Definition rating_map_get (qual : cell) : option Z :=
  match qual with
  | Str s => snd <$> List.find (fun kv => bool_decide (fst kv = s)) rating_map
  | _ => None
  end.

Definition auto_rate_by_qualification (filtered_df : DataFrame) (st : session_state)
  : session_state :=
  iterrows (fun row st =>
              qual ← row_getitem row col_qualification;
              match rating_map_get qual with
              | Some rating =>
                  id ← row_id row;
                  mret (set_ratings (<[id := rating]> (ratings st)) st)
              | None => mret st
              end)
           (rows filtered_df) st.

(** The footer buttons. *)
Definition reset_all_selections (st : session_state) : session_state :=
  set_dispositions ∅ ∅ st.

Definition upload_new_file (st : session_state) : session_state :=
  {| df := None; shortlisted := ∅; rejected := ∅; remarks := ∅;
     contact_status := ∅; interview_scheduled := ∅; ratings := ∅ |}.

(** The uploader shown while no dataframe is loaded. *)
Definition upload_file (parsed : result DataFrame) (st : session_state) : session_state :=
  match df st with
  | None =>
      match load_data parsed with
      | Some frame => set_df (Some frame) st
      | None => st
      end
  | Some _ => st
  end.

(** ** One run of the script on an event

    The widgets are drawn only while a dataframe is loaded; the uploader
    only while none is. *)

Inductive action : Type :=
  | UploadFile (parsed : result DataFrame)
  | ShortlistClick (row_id : Z)
  | RejectClick (row_id : Z)
  | ContactSelect (row_id : Z) (choice : nat)
  | RatingSelect (row_id : Z) (choice : nat)
  | ScheduleClick (row_id : Z) (interview_date : string)
  | CancelClick (row_id : Z)
  | SaveRemarkClick (now : string) (row_id : Z) (new_remark : string)
  | MarkShortlistedEmailSent
  | MarkFilteredNoAnswer (filtered_df : DataFrame)
  | AutoShortlistLaptopSmartphone (filtered_df : DataFrame)
  | AutoShortlistFullTime (filtered_df : DataFrame)
  | AutoShortlistGraduateEngineer (filtered_df : DataFrame)
  | AutoShortlistRated (filtered_df : DataFrame)
  | ShortlistAllFiltered (filtered_df : DataFrame)
  | RejectAllFiltered (filtered_df : DataFrame)
  | ResetFilteredToPending (filtered_df : DataFrame)
  | AutoRateByQualification (filtered_df : DataFrame)
  | ResetAllSelections
  | UploadNewFile.

Definition handle (a : action) (st : session_state) : session_state :=
  match a with
  | UploadFile _ => st
  | ShortlistClick row_id => shortlist row_id st
  | RejectClick row_id => reject row_id st
  | ContactSelect row_id choice => contact_select row_id choice st
  | RatingSelect row_id choice => rating_select row_id choice st
  | ScheduleClick row_id interview_date => schedule_click row_id interview_date st
  | CancelClick row_id => cancel_click row_id st
  | SaveRemarkClick now row_id new_remark =>
      fst (save_remark_click now row_id new_remark st)
  | MarkShortlistedEmailSent => mark_shortlisted_email_sent st
  | MarkFilteredNoAnswer filtered_df => mark_filtered_no_answer filtered_df st
  | AutoShortlistLaptopSmartphone filtered_df =>
      auto_shortlist has_laptop_and_smartphone filtered_df st
  | AutoShortlistFullTime filtered_df => auto_shortlist full_time_available filtered_df st
  | AutoShortlistGraduateEngineer filtered_df =>
      auto_shortlist graduate_or_engineer filtered_df st
  | AutoShortlistRated filtered_df => auto_shortlist rated_four_plus filtered_df st
  | ShortlistAllFiltered filtered_df => shortlist_all_filtered filtered_df st
  | RejectAllFiltered filtered_df => reject_all_filtered filtered_df st
  | ResetFilteredToPending filtered_df => reset_filtered_to_pending filtered_df st
  | AutoRateByQualification filtered_df => auto_rate_by_qualification filtered_df st
  | ResetAllSelections => reset_all_selections st
  | UploadNewFile => upload_new_file st
  end.

Definition run (a : action) (st : session_state) : session_state :=
  match df st with
  | None =>
      match a with
      | UploadFile parsed => upload_file parsed st
      | _ => st
      end
  | Some _ => handle a st
  end.

Inductive reachable : session_state -> Prop :=
  | reachable_init : reachable initial_state
  | reachable_run (a : action) (st : session_state) :
      reachable st -> reachable (run a st).

(** ** Dashboard and reports *)

(** [a / b] on integers: the quotient as a number, or the exception on a
    zero divisor.  The float is kept as the exact quotient. *)
Definition py_truediv (a b : Z) : result Q :=
  if b =? 0 then Raise ZeroDivisionError
  else Ok (Qmake a 1 / Qmake b 1)%Q.

(** [count / len(df) * 100], the number the delta label prints with one
    decimal. *)
Definition percentage (count total : Z) : result Q :=
  q ← py_truediv count total;
  mret (q * Qmake 100 1)%Q.

Record metric : Type := mkMetric {
  label : string;
  value : Z;
  delta : option Q
}.

Definition set_len (s : gset Z) : Z := Z.of_nat (size s).
Definition dict_len {V : Type} (m : gmap Z V) : Z := Z.of_nat (size m).

(** The six [st.metric] calls of the overview, in the order the script
    evaluates them. *)
Definition dashboard_overview (frame : DataFrame) (st : session_state)
  : result (list metric) :=
  let m1 := mkMetric "Total Applications" (len frame) None in
  d2 ← percentage (set_len (shortlisted st)) (len frame);
  let m2 := mkMetric "Shortlisted" (set_len (shortlisted st)) (Some d2) in
  d3 ← percentage (set_len (rejected st)) (len frame);
  let m3 := mkMetric "Rejected" (set_len (rejected st)) (Some d3) in
  let pending := len frame - set_len (shortlisted st) - set_len (rejected st) in
  d4 ← percentage pending (len frame);
  let m4 := mkMetric "Pending" pending (Some d4) in
  let m5 := mkMetric "Contacted" (dict_len (contact_status st)) None in
  let m6 := mkMetric "Interviews" (dict_len (interview_scheduled st)) None in
  mret [m1; m2; m3; m4; m5; m6].

(** The list comprehension of the onboarding tab and of the summary
    report. *)
Definition is_ready (st : session_state) (id : Z) : bool :=
  match contact_status st !! id with
  | Some status => py_in "Interested" status
  | None => false
  end.

Definition ready_candidates (st : session_state) : list Z :=
  List.filter (is_ready st) (elements (shortlisted st)).

Definition candidates_ready (st : session_state) : Z :=
  Z.of_nat (length (ready_candidates st)).

(** The frame behind Download Full Report. *)
Definition full_report (frame : DataFrame) (st : session_state) : result DataFrame :=
  let report_df := frame in
  ids ← getitem report_df "ID";
  let report_df :=
    setitem report_df "Status" (map (fun v => Str (get_status_cell st v)) ids) in
  ids ← getitem report_df "ID";
  let report_df :=
    setitem report_df "Contact_Status"
      (map (fun v => Str (dict_get (contact_status st) v "Not Contacted")) ids) in
  ids ← getitem report_df "ID";
  let report_df :=
    setitem report_df "Rating" (map (fun v => Int (dict_get (ratings st) v 0)) ids) in
  ids ← getitem report_df "ID";
  let report_df :=
    setitem report_df "Interview_Date"
      (map (fun v => Str (dict_get (interview_scheduled st) v "Not Scheduled")) ids) in
  mret report_df.

Definition report_columns : list string :=
  ["Status"; "Contact_Status"; "Rating"; "Interview_Date"].

(** ** The file of the report and its upload

    [DataFrame.to_csv(index=False)] and [pd.read_csv] belong to pandas and
    are parameters: the first writes a frame as CSV text, the second reads
    a text as a frame or raises. *)

Section Csv.

Variable to_csv : DataFrame -> string.
Variable read_csv : string -> result DataFrame.

(** [csv = report_df.to_csv(index=False)]: the text handed to the
    download button. *)
Definition download_full_report (frame : DataFrame) (st : session_state)
  : result string :=
  report_df ← full_report frame st;
  mret (to_csv report_df).

(** [load_data(file)] on the text of an uploaded file. *)
Definition load_file (file : string) : option DataFrame := load_data (read_csv file).


End Csv.

(** The ids of the rows of a frame, in index order. *)
Definition frame_ids (frame : DataFrame) : list Z :=
  omap (fun r => match row_id r with Ok n => Some n | Raise _ => None end) (rows frame).

(** Every row carries an integer [ID], as after [load_data]. *)
Definition has_ids (frame : DataFrame) : bool :=
  forallb (fun r => is_ok (row_id r)) (rows frame).

(** ** A small dataset used to exercise the definitions *)

Definition sample_row (name gender laptop phone birth qual hours : string)
  : gmap string cell :=
  <["Your Full name" := Str name]>
    (<[col_gender := Str gender]>
       (<[col_laptop := Str laptop]>
          (<[col_smartphone := Str phone]>
             (<[col_age := Str birth]>
                (<[col_qualification := Str qual]>
                   (<[col_internship := Str "Project Based"]>
                      (<[col_district := Str "Hyderabad"]>
                         (<[col_hours := Str hours]> ∅)))))))).

Definition sample_raw : DataFrame :=
  {| columns := ["Your Full name"; col_gender; col_laptop; col_smartphone; col_age;
                 col_qualification; col_internship; col_district; col_hours];
     rows := [sample_row "Asha" "Female" "Yes" "Yes" "15-03-2000" "Graduate" "Full time";
              sample_row "Ravi" "Male" "Yes" "No" "" "Diploma" "Part time";
              sample_row "Meena" "Female" "No" "Yes" "March 2001" "Engineer" "Full time"] |}.

Definition sample_df : DataFrame :=
  setitem sample_raw "ID" (range_cells (length (rows sample_raw))).

Definition sample_state : session_state := run (UploadFile (Ok sample_raw)) initial_state.

(** A header-only file: the columns without any row. *)
Definition empty_raw : DataFrame := {| columns := columns sample_raw; rows := [] |}.

(** A day-month-year reader for the sample: two digits, a dash, two
    digits, a dash, four digits. *)
Definition digit (a : ascii) : option Z :=
  let n := Z.of_N (N_of_ascii a) in
  if (48 <=? n) && (n <=? 57) then Some (n - 48) else None.

Definition sample_to_datetime (v : cell) : option date :=
  match v with
  | Str (String d1 (String d2 (String "-" (String m1 (String m2 (String "-"
      (String y1 (String y2 (String y3 (String y4 EmptyString)))))))))) =>
      match digit d1, digit d2, digit m1, digit m2,
            digit y1, digit y2, digit y3, digit y4 with
      | Some a, Some b, Some c, Some d, Some e, Some f, Some g, Some h =>
          Some {| year := 1000 * e + 100 * f + 10 * g + h;
                  month := 10 * c + d;
                  day := 10 * a + b |}
      | _, _, _, _, _, _, _, _ => None
      end
  | _ => None
  end.

Definition sample_today : date := {| year := 2024; month := 3; day := 14 |}.

(** A writer and a reader of CSV text for the sample, without quoting:
    one line per row after the header line, fields separated by commas;
    a missing value is written as the empty field, and a field is read
    as a missing value when empty, as an integer when it is one, as text
    otherwise. *)
Definition newline : ascii := ascii_of_nat 10.

Definition csv_field (v : cell) : string :=
  match v with
  | NaN => ""
  | Str text => text
  | Int n => pretty n
  end.

Fixpoint join (sep : ascii) (fields : list string) : string :=
  match fields with
  | [] => ""
  | f :: fs =>
      match fs with
      | [] => f
      | _ :: _ => String.append f (String sep (join sep fs))
      end
  end.

Definition csv_line (fields : list string) : string :=
  String.append (join "," fields) (String newline "").

Definition sample_to_csv (frame : DataFrame) : string :=
  String.concat ""
    (csv_line (columns frame)
     :: map (fun r => csv_line (map (fun c => csv_field (loc r c)) (columns frame)))
            (rows frame)).

Fixpoint split_on (sep : ascii) (text : string) : list string :=
  match text with
  | EmptyString => [""]
  | String a text' =>
      let rest := split_on sep text' in
      if Ascii.eqb a sep then "" :: rest
      else match rest with
           | f :: fs => String a f :: fs
           | [] => [String a ""]
           end
  end.

Fixpoint digits (text : string) (acc : Z) : option Z :=
  match text with
  | EmptyString => Some acc
  | String a text' =>
      match digit a with
      | Some d => digits text' (10 * acc + d)
      | None => None
      end
  end.

Definition csv_cell (field : string) : cell :=
  match field with
  | EmptyString => NaN
  | String "-" (String a text) =>
      match digits (String a text) 0 with
      | Some n => Int (- n)
      | None => Str field
      end
  | _ =>
      match digits field 0 with
      | Some n => Int n
      | None => Str field
      end
  end.

Definition csv_row (cols fields : list string) : gmap string cell :=
  foldr (fun cf r => <[fst cf := csv_cell (snd cf)]> r) ∅ (zip cols fields).

Definition sample_read_csv (text : string) : result DataFrame :=
  match List.filter str_truthy (split_on newline text) with
  | [] => Raise EmptyDataError
  | header :: lines =>
      let cols := split_on "," header in
      Ok {| columns := cols;
            rows := map (fun line => csv_row cols (split_on "," line)) lines |}
  end.




Definition no_filters : Filters :=
  {| f_search := ""; f_gender := "All"; f_qualification := "All";
     f_internship_type := "All"; f_district := "All"; f_laptop := "All";
     f_smartphone := "All"; f_availability := "All"; f_min_age := None;
     f_max_age := None; f_view_mode := "All Applications";
     f_contact_status := "All"; f_interview_status := "All" |}.

(** ** Notions used by the properties *)

Definition disjoint_dispositions (st : session_state) : Prop :=
  shortlisted st ## rejected st.

Definition keeps_contacts (st st' : session_state) : Prop :=
  dom (contact_status st) ⊆ dom (contact_status st').


(** A file that already has a [Rating] column. *)
Definition rated_raw : DataFrame :=
  {| columns := ["Your Full name"; "Rating"];
     rows := [<["Your Full name" := Str "Asha"]> (<["Rating" := Int 5]> ∅)] |}.

Definition rated_df : DataFrame :=
  setitem rated_raw "ID" (range_cells (length (rows rated_raw))).

(** The labels [apply_filters] reads. *)
Definition filter_columns : list string :=
  [col_gender; col_qualification; col_internship; col_laptop; col_smartphone;
   col_district; col_hours; "ID"; col_age].

Definition has_filter_columns (frame : DataFrame) : bool :=
  forallb (fun c => bool_decide (c ∈ columns frame)) filter_columns.

(** [out] has the labels of [frame] and only rows of [frame]. *)
Definition narrowed (frame out : DataFrame) : Prop :=
  columns out = columns frame /\ forall r, r ∈ rows out -> r ∈ rows frame.

Definition carries_filter_columns (frame : DataFrame) : Prop :=
  forall c, c ∈ filter_columns -> c ∈ columns frame.

(** The sidebar with only a minimum age of 18. *)
Definition min_age_18 : Filters :=
  {| f_search := ""; f_gender := "All"; f_qualification := "All";
     f_internship_type := "All"; f_district := "All"; f_laptop := "All";
     f_smartphone := "All"; f_availability := "All"; f_min_age := Some 18;
     f_max_age := None; f_view_mode := "All Applications";
     f_contact_status := "All"; f_interview_status := "All" |}.

(** The sample with a fourth candidate whose birth date is missing. *)
Definition undated_row : gmap string cell :=
  <[col_age := NaN]> (sample_row "Kiran" "Male" "Yes" "Yes" "" "Graduate" "Full time").

Definition dated_raw : DataFrame :=
  {| columns := columns sample_raw; rows := rows sample_raw ++ [undated_row] |}.

Definition dated_df : DataFrame :=
  setitem dated_raw "ID" (range_cells (length (rows dated_raw))).

Definition dated_state : session_state := run (UploadFile (Ok dated_raw)) initial_state.

(** The sidebar with only a maximum age of 60, and with both bounds. *)
Definition max_age_60 : Filters :=
  {| f_search := ""; f_gender := "All"; f_qualification := "All";
     f_internship_type := "All"; f_district := "All"; f_laptop := "All";
     f_smartphone := "All"; f_availability := "All"; f_min_age := None;
     f_max_age := Some 60; f_view_mode := "All Applications";
     f_contact_status := "All"; f_interview_status := "All" |}.

Definition age_18_to_60 : Filters :=
  {| f_search := ""; f_gender := "All"; f_qualification := "All";
     f_internship_type := "All"; f_district := "All"; f_laptop := "All";
     f_smartphone := "All"; f_availability := "All"; f_min_age := Some 18;
     f_max_age := Some 60; f_view_mode := "All Applications";
     f_contact_status := "All"; f_interview_status := "All" |}.

(** Two stand-ins for the search of the library, for the sample: one
    that finds nothing, and one that refuses a term with an opening
    parenthesis as a pattern and looks any other term up as it is
    written. *)
Definition never_contains (term : string) (texts : list string) : result (list bool) :=
  Ok (map (fun _ => false) texts).

Definition literal_contains (term : string) (texts : list string) : result (list bool) :=
  if py_in "(" term then Raise (ReError term) else Ok (map (py_in term) texts).

Definition contacted_only : Filters :=
  {| f_search := ""; f_gender := "All"; f_qualification := "All";
     f_internship_type := "All"; f_district := "All"; f_laptop := "All";
     f_smartphone := "All"; f_availability := "All"; f_min_age := None;
     f_max_age := None; f_view_mode := "All Applications";
     f_contact_status := "Contacted"; f_interview_status := "All" |}.

Definition not_contacted_only : Filters :=
  {| f_search := ""; f_gender := "All"; f_qualification := "All";
     f_internship_type := "All"; f_district := "All"; f_laptop := "All";
     f_smartphone := "All"; f_availability := "All"; f_min_age := None;
     f_max_age := None; f_view_mode := "All Applications";
     f_contact_status := "Not Contacted"; f_interview_status := "All" |}.

(** Candidate 0 is set to Called - Interested and then back to Not
    Contacted. *)
Definition set_back_state : session_state :=
  run (ContactSelect 0 0) (run (ContactSelect 0 2) sample_state).

(** The ids a filter returns, or the exception. *)
Definition filtered_ids (filtered : result DataFrame) : result (list Z) :=
  frame ← filtered; mret (frame_ids frame).

(** ** Notions used by the further properties *)

(** The rows of a frame that meet a test, as a frame. *)
Definition where_rows (test : gmap string cell -> bool) (frame : DataFrame) : DataFrame :=
  {| columns := columns frame; rows := List.filter test (rows frame) |}.

(** Every row has a cell under each of the labels. *)
Definition rows_have (labels : list string) (frame : DataFrame) : bool :=
  forallb (fun r => forallb (fun c => bool_decide (is_Some (r !! c))) labels)
          (rows frame).

(** The four auto-shortlist criteria as tests on a row. *)
Definition meets_laptop_smartphone (r : gmap string cell) : bool :=
  cell_eq_str "Yes" (loc r col_laptop) && cell_eq_str "Yes" (loc r col_smartphone).

Definition meets_full_time (r : gmap string cell) : bool :=
  py_in "Full" (astype_str (loc r col_hours)).

Definition meets_graduate_engineer (r : gmap string cell) : bool :=
  cell_eq_str "Graduate" (loc r col_qualification)
  || cell_eq_str "Engineer" (loc r col_qualification).

Definition meets_rated (st : session_state) (r : gmap string cell) : bool :=
  4 <=? dict_get (ratings st) (loc r "ID") 0.

(** The frame a bulk button of the view works on. *)
Definition view_of (a : action) : option DataFrame :=
  match a with
  | MarkFilteredNoAnswer filtered_df
  | AutoShortlistLaptopSmartphone filtered_df
  | AutoShortlistFullTime filtered_df
  | AutoShortlistGraduateEngineer filtered_df
  | AutoShortlistRated filtered_df
  | ShortlistAllFiltered filtered_df
  | RejectAllFiltered filtered_df
  | ResetFilteredToPending filtered_df
  | AutoRateByQualification filtered_df => Some filtered_df
  | _ => None
  end.

(** What is recorded about one id is the same in two states, and so are
    the dataframe, the remarks and the interviews. *)
Definition untouched_at (id : Z) (st st' : session_state) : Prop :=
  (id ∈ shortlisted st' <-> id ∈ shortlisted st)
  /\ (id ∈ rejected st' <-> id ∈ rejected st)
  /\ contact_status st' !! id = contact_status st !! id
  /\ ratings st' !! id = ratings st !! id
  /\ remarks st' = remarks st
  /\ interview_scheduled st' = interview_scheduled st
  /\ df st' = df st.

Definition ratings_in_range (st : session_state) : Prop :=
  map_Forall (fun _ r => 0 <= r <= 5) (ratings st).

Definition statuses_known (st : session_state) : Prop :=
  map_Forall (fun _ status => status ∈ contact_options) (contact_status st).

(** Dates in calendar order: year, then month, then day. *)
Definition date_le (a b : date) : bool :=
  (year a <? year b)
  || ((year a =? year b)
      && ((month a <? month b) || ((month a =? month b) && (day a <=? day b)))).

(** ** What [apply_filters] computes after the search block, as one test
    per row *)

Section FilterSpec.

Variable to_datetime : cell -> option date.
Variable today : date.

(** A categorical choice: [All] or the exact text of the cell. *)
Definition cat_test (value c : string) (r : gmap string cell) : bool :=
  bool_decide (value = "All") || cell_eq_str value (loc r c).

(** A choice between the ids that are keys of a dict and those that are
    not; any other choice lets every row pass. *)
Definition keys_test {V : Type} (m : gmap Z V) (choice yes no : string)
    (r : gmap string cell) : bool :=
  if decide (choice = yes) then isin_keys m (loc r "ID")
  else if decide (choice = no) then negb (isin_keys m (loc r "ID"))
  else true.

Definition view_test (st : session_state) (mode : string) (r : gmap string cell) : bool :=
  if decide (mode = "Shortlisted") then isin_set (shortlisted st) (loc r "ID")
  else if decide (mode = "Rejected") then isin_set (rejected st) (loc r "ID")
  else if decide (mode = "Pending")
  then negb (isin_set (shortlisted st) (loc r "ID"))
       && negb (isin_set (rejected st) (loc r "ID"))
  else true.

(** An age bound that is set ([None] and 0 are not) needs an age, and
    the age must be on the right side of it. *)
Definition bound_test (bound : option Z) (cmp : Z -> Z -> bool) (age : option Z) : bool :=
  match bound with
  | Some n =>
      if n =? 0 then true
      else match age with
           | Some a => cmp a n
           | None => false
           end
  | None => true
  end.

Definition row_passes (st : session_state) (filters : Filters)
    (r : gmap string cell) : bool :=
  cat_test (f_gender filters) col_gender r
  && cat_test (f_qualification filters) col_qualification r
  && cat_test (f_internship_type filters) col_internship r
  && cat_test (f_laptop filters) col_laptop r
  && cat_test (f_smartphone filters) col_smartphone r
  && cat_test (f_district filters) col_district r
  && cat_test (f_availability filters) col_hours r
  && keys_test (contact_status st) (f_contact_status filters)
       "Contacted" "Not Contacted" r
  && keys_test (interview_scheduled st) (f_interview_status filters)
       "Scheduled" "Not Scheduled" r
  && bound_test (f_min_age filters) (fun a n => n <=? a)
       (calculate_age to_datetime today (loc r col_age))
  && bound_test (f_max_age filters) (fun a n => a <=? n)
       (calculate_age to_datetime today (loc r col_age))
  && view_test st (f_view_mode filters) r.

(** The rows of the searched frame that pass, in its order; with an age
    bound set they carry the [Age] cell and the frame has the [Age]
    column. *)
Definition filtered_frame (st : session_state) (df : DataFrame) (filters : Filters)
  : DataFrame :=
  let kept := List.filter (row_passes st filters) (rows df) in
  if truthy (f_min_age filters) || truthy (f_max_age filters)
  then {| columns := if decide ("Age" ∈ columns df) then columns df
                     else columns df ++ ["Age"];
          rows := map (with_age to_datetime today) kept |}
  else {| columns := columns df; rows := kept |}.

End FilterSpec.

(** The rows in which some column, turned into text, meets [matches]:
    what the search block keeps when the library searches each text for
    the compiled pattern. *)
Definition search_row (matches : string -> bool) (frame : DataFrame)
    (r : gmap string cell) : bool :=
  existsb (fun c => matches (astype_str (loc r c))) (columns frame).

(** A birth date the age cannot be computed from: missing, empty, or not
    read by [pd.to_datetime]. *)
Definition unreadable_birth_date (to_datetime : cell -> option date) (v : cell) : Prop :=
  v = NaN \/ v = Str "" \/ to_datetime v = None.

(** The test an age bound applies to a row that carries its [Age] cell. *)
Definition bound_cell_test (bound : option Z) (cmp : cell -> Z -> bool)
    (r : gmap string cell) : bool :=
  match bound with
  | Some n => if n =? 0 then true else cmp (loc r "Age") n
  | None => true
  end.

(** The sidebar with a search for full-timers aged 18 or more, and with a
    search term that is no pattern. *)
Definition search_full_time : Filters :=
  {| f_search := "Full"; f_gender := "All"; f_qualification := "All";
     f_internship_type := "All"; f_district := "All"; f_laptop := "All";
     f_smartphone := "All"; f_availability := "All"; f_min_age := Some 18;
     f_max_age := None; f_view_mode := "All Applications";
     f_contact_status := "All"; f_interview_status := "All" |}.

Definition search_open_paren : Filters :=
  {| f_search := "("; f_gender := "All"; f_qualification := "All";
     f_internship_type := "All"; f_district := "All"; f_laptop := "All";
     f_smartphone := "All"; f_availability := "All"; f_min_age := None;
     f_max_age := None; f_view_mode := "All Applications";
     f_contact_status := "All"; f_interview_status := "All" |}.

(** The sidebar with only the gender chosen. *)
Definition female_only : Filters :=
  {| f_search := ""; f_gender := "Female"; f_qualification := "All";
     f_internship_type := "All"; f_district := "All"; f_laptop := "All";
     f_smartphone := "All"; f_availability := "All"; f_min_age := None;
     f_max_age := None; f_view_mode := "All Applications";
     f_contact_status := "All"; f_interview_status := "All" |}.

(** ** Pages of the applications tab *)

Definition items_per_page : Z := 5.

(** [(len(filtered_df) - 1) // items_per_page + 1]; the tab computes it
    only for a view that has rows. *)
Definition total_pages (filtered_df : DataFrame) : Z :=
  (len filtered_df - 1) / items_per_page + 1.

(** [frame.iloc[start:stop]] for [0 <= start <= stop]: positions past the
    end are left out. *)
Definition iloc_slice (frame : DataFrame) (start stop : Z) : DataFrame :=
  {| columns := columns frame;
     rows := take (Z.to_nat (stop - start)) (drop (Z.to_nat start) (rows frame)) |}.

(** The rows shown on a page; the page widget gives a number from 1 to
    [total_pages]. *)
Definition page_df (filtered_df : DataFrame) (page : Z) : DataFrame :=
  let start_idx := (page - 1) * items_per_page in
  let end_idx := start_idx + items_per_page in
  iloc_slice filtered_df start_idx end_idx.

(** ** Lists of the contact tab *)

(** [[id for id, status in contact_status.items() if ...]] *)
Definition follow_ups (st : session_state) : list Z :=
  map fst (List.filter
             (fun item => py_in "Follow-up" (snd item) || py_in "No Answer" (snd item))
             (map_to_list (contact_status st))).

Definition interested (st : session_state) : list Z :=
  map fst (List.filter (fun item => py_in "Interested" (snd item))
                       (map_to_list (contact_status st))).

(** The sidebar with only the view mode chosen. *)
Definition view_only (mode : string) : Filters :=
  {| f_search := ""; f_gender := "All"; f_qualification := "All";
     f_internship_type := "All"; f_district := "All"; f_laptop := "All";
     f_smartphone := "All"; f_availability := "All"; f_min_age := None;
     f_max_age := None; f_view_mode := mode;
     f_contact_status := "All"; f_interview_status := "All" |}.

(** The text starts with a white-space character. *)
Definition leading_space (s : string) : bool :=
  match s with
  | EmptyString => false
  | String a s1 =>
      is_space1 a
      || match s1 with
         | EmptyString => false
         | String b s2 =>
             is_space2 a b
             || match s2 with
                | EmptyString => false
                | String c _ => is_space3 a b c
                end
         end
  end.

(** A white-space character as [lstrip_rev] meets it: its bytes in
    reverse order. *)
Definition reversed_space (chunk : string) : bool :=
  match chunk with
  | String a EmptyString => is_space1 a
  | String a (String b EmptyString) => is_space2 b a
  | String a (String b (String c EmptyString)) => is_space3 c b a
  | _ => false
  end.

(** Nothing is chosen in the sidebar: no search term, every select box on
    [All], no age bound, and a view mode that is none of the three
    dispositions. *)
Definition nothing_chosen (filters : Filters) : bool :=
  negb (str_truthy (f_search filters))
  && bool_decide (f_gender filters = "All")
  && bool_decide (f_qualification filters = "All")
  && bool_decide (f_internship_type filters = "All")
  && bool_decide (f_laptop filters = "All")
  && bool_decide (f_smartphone filters = "All")
  && bool_decide (f_district filters = "All")
  && bool_decide (f_availability filters = "All")
  && bool_decide (f_contact_status filters = "All")
  && bool_decide (f_interview_status filters = "All")
  && negb (truthy (f_min_age filters) || truthy (f_max_age filters))
  && bool_decide (f_view_mode filters <> "Shortlisted")
  && bool_decide (f_view_mode filters <> "Rejected")
  && bool_decide (f_view_mode filters <> "Pending").

(** * Properties *)

(** ** The result type *)

Lemma bind_Ok {A B : Type} (m : result A) (f : A -> result B) (b : B) :
  m ≫= f = Ok b -> exists a, m = Ok a /\ f a = Ok b.
Proof.
  destruct m as [a | e]; cbn; [eauto | discriminate].
Qed.

Lemma row_id_Ok (r : gmap string cell) (n : Z) :
  row_id r = Ok n <-> r !! "ID" = Some (Int n).
Proof.
  unfold row_id. destruct (r !! "ID") as [[| s | k] |]; split; intros H;
    try discriminate; congruence.
Qed.

(** Case analysis on a successful body of a loop. *)
Ltac invert_ok :=
  repeat match goal with
         | H : _ ≫= _ = Ok _ |- _ => apply bind_Ok in H as (? & ? & H)
         | H : mret _ = Ok _ |- _ => injection H as <-
         | H : Raise _ = Ok _ |- _ => discriminate H
         | H : (if ?b then _ else _) = Ok _ |- _ => destruct b
         | H : match ?x with _ => _ end = Ok _ |- _ => destruct x
         end.

(** ** Loops over the rows *)

Lemma iterrows_invariant (P : session_state -> Prop)
    (body : gmap string cell -> session_state -> result session_state)
    (rs : list (gmap string cell)) (st : session_state) :
  (forall r s s', P s -> body r s = Ok s' -> P s') ->
  P st -> P (iterrows body rs st).
Proof.
  intros Hbody. revert st.
  induction rs as [| r rs IH]; intros st Hst; cbn; [exact Hst |].
  destruct (body r st) as [st' | e] eqn:E; [| exact Hst].
  apply IH. eapply Hbody; eassumption.
Qed.

(** ** Dispositions *)

Lemma shortlist_disjoint (id : Z) (st : session_state) :
  disjoint_dispositions st -> disjoint_dispositions (shortlist id st).
Proof. unfold disjoint_dispositions; cbn. set_solver. Qed.

Lemma reject_disjoint (id : Z) (st : session_state) :
  disjoint_dispositions st -> disjoint_dispositions (reject id st).
Proof. unfold disjoint_dispositions; cbn. set_solver. Qed.

Lemma reset_disposition_disjoint (id : Z) (st : session_state) :
  disjoint_dispositions st -> disjoint_dispositions (reset_disposition id st).
Proof. unfold disjoint_dispositions; cbn. set_solver. Qed.

Lemma auto_shortlist_disjoint criterion (filtered_df : DataFrame) (st : session_state) :
  disjoint_dispositions st ->
  disjoint_dispositions (auto_shortlist criterion filtered_df st).
Proof.
  apply iterrows_invariant. intros r s s' Hs H. invert_ok.
  - by apply shortlist_disjoint.
  - exact Hs.
Qed.

Lemma handle_disjoint (a : action) (st : session_state) :
  disjoint_dispositions st -> disjoint_dispositions (handle a st).
Proof.
  intros Hst.
  destruct a; cbn [handle]; try exact Hst;
    try (by apply auto_shortlist_disjoint);
    try (revert Hst; apply iterrows_invariant; intros r s s' Hs H; invert_ok;
         first [ exact Hs | by apply shortlist_disjoint | by apply reject_disjoint
               | by apply reset_disposition_disjoint ]).
  - by apply shortlist_disjoint.
  - by apply reject_disjoint.
  - unfold contact_select. destruct (contact_options !! choice); [| exact Hst].
    case_decide; exact Hst.
  - unfold rating_select. destruct (rating_options !! choice); [| exact Hst].
    case_decide; exact Hst.
  - unfold schedule_click. destruct (interview_scheduled st !! row_id0); exact Hst.
  - unfold cancel_click. destruct (interview_scheduled st !! row_id0); exact Hst.
  - unfold save_remark_click. destruct (str_truthy _); exact Hst.
  - unfold disjoint_dispositions; cbn. set_solver.
  - unfold disjoint_dispositions; cbn. set_solver.
Qed.

Lemma run_disjoint (a : action) (st : session_state) :
  disjoint_dispositions st -> disjoint_dispositions (run a st).
Proof.
  intros Hst. unfold run. destruct (df st) eqn:E.
  - by apply handle_disjoint.
  - destruct a; try exact Hst.
    unfold upload_file. rewrite E. destruct (load_data parsed); exact Hst.
Qed.

Lemma reachable_disjoint (st : session_state) :
  reachable st -> disjoint_dispositions st.
Proof.
  induction 1 as [| a st _ IH].
  - unfold disjoint_dispositions; cbn. set_solver.
  - by apply run_disjoint.
Qed.

Lemma shortlist_all_filtered_effect (filtered_df : DataFrame) (st : session_state) :
  has_ids filtered_df = true ->
  shortlisted (shortlist_all_filtered filtered_df st)
    = list_to_set (frame_ids filtered_df) ∪ shortlisted st
  /\ rejected (shortlist_all_filtered filtered_df st)
    = rejected st ∖ list_to_set (frame_ids filtered_df).
Proof.
  unfold has_ids, frame_ids, shortlist_all_filtered.
  destruct filtered_df as [cols rs]; cbn [rows]. revert st.
  induction rs as [| r rs IH]; intros st Hids; cbn.
  - split; set_solver.
  - cbn in Hids. apply andb_prop in Hids as [Hr Hrs].
    destruct (row_id r) as [id | e]; [| discriminate]. cbn.
    destruct (IH (shortlist id st) Hrs) as [-> ->]. cbn. split; set_solver.
Qed.

Lemma reject_all_filtered_effect (filtered_df : DataFrame) (st : session_state) :
  has_ids filtered_df = true ->
  rejected (reject_all_filtered filtered_df st)
    = list_to_set (frame_ids filtered_df) ∪ rejected st
  /\ shortlisted (reject_all_filtered filtered_df st)
    = shortlisted st ∖ list_to_set (frame_ids filtered_df).
Proof.
  unfold has_ids, frame_ids, reject_all_filtered.
  destruct filtered_df as [cols rs]; cbn [rows]. revert st.
  induction rs as [| r rs IH]; intros st Hids; cbn.
  - split; set_solver.
  - cbn in Hids. apply andb_prop in Hids as [Hr Hrs].
    destruct (row_id r) as [id | e]; [| discriminate]. cbn.
    destruct (IH (reject id st) Hrs) as [-> ->]. cbn. split; set_solver.
Qed.

Lemma sample_state_reachable : reachable sample_state.
Proof. apply reachable_run, reachable_init. Qed.

(** C1. The shortlisted and the rejected set are disjoint in every
    reachable state; Shortlist adds the id to the first and removes it
    from the second, Reject does the converse, the two bulk buttons do so
    for every id of the view; after Shortlist then Reject the status of the
    id is Rejected and the id is not shortlisted. *)
Theorem disposition_mutual_exclusivity :
  (forall st, reachable st -> shortlisted st ## rejected st)
  /\ (forall id st,
        shortlisted (shortlist id st) = {[id]} ∪ shortlisted st
        /\ rejected (shortlist id st) = rejected st ∖ {[id]})
  /\ (forall id st,
        rejected (reject id st) = {[id]} ∪ rejected st
        /\ shortlisted (reject id st) = shortlisted st ∖ {[id]})
  /\ (forall filtered_df st,
        has_ids filtered_df = true ->
        shortlisted (shortlist_all_filtered filtered_df st)
          = list_to_set (frame_ids filtered_df) ∪ shortlisted st
        /\ rejected (shortlist_all_filtered filtered_df st)
          = rejected st ∖ list_to_set (frame_ids filtered_df))
  /\ (forall filtered_df st,
        has_ids filtered_df = true ->
        rejected (reject_all_filtered filtered_df st)
          = list_to_set (frame_ids filtered_df) ∪ rejected st
        /\ shortlisted (reject_all_filtered filtered_df st)
          = shortlisted st ∖ list_to_set (frame_ids filtered_df))
  /\ (forall id st,
        get_status (reject id (shortlist id st)) id = "❌ Rejected"
        /\ id ∉ shortlisted (reject id (shortlist id st))).
Proof.
  split; [exact reachable_disjoint |].
  split; [intros id st; split; reflexivity |].
  split; [intros id st; split; reflexivity |].
  split; [exact shortlist_all_filtered_effect |].
  split; [exact reject_all_filtered_effect |].
  intros id st.
  assert (Hout : id ∉ shortlisted (reject id (shortlist id st))) by (cbn; set_solver).
  assert (Hin : id ∈ rejected (reject id (shortlist id st))) by (cbn; set_solver).
  split; [| exact Hout].
  unfold get_status. rewrite decide_False by exact Hout.
  by rewrite decide_True by exact Hin.
Qed.

Lemma disposition_mutual_exclusivity_witness :
  shortlisted (run (RejectClick 0) (run (ShortlistClick 0) sample_state))
    ## rejected (run (RejectClick 0) (run (ShortlistClick 0) sample_state))
  /\ shortlisted (shortlist_all_filtered sample_df sample_state)
     = list_to_set (frame_ids sample_df) ∪ shortlisted sample_state
  /\ rejected (reject_all_filtered sample_df sample_state)
     = list_to_set (frame_ids sample_df) ∪ rejected sample_state.
Proof.
  destruct disposition_mutual_exclusivity as (Hinv & _ & _ & Hshort & Hrej & _).
  split; [| split].
  - apply Hinv. do 2 apply reachable_run. exact sample_state_reachable.
  - apply Hshort. vm_compute. reflexivity.
  - apply Hrej. vm_compute. reflexivity.
Defined.

(** ** Reset All Selections *)

(** C7. Reset All Selections empties the shortlisted and the rejected set
    and leaves the dataframe, the contact statuses, the ratings, the
    interview dates and the remarks of every id as they were. *)
Theorem reset_all_selections_frame (st : session_state) :
  shortlisted (handle ResetAllSelections st) = ∅
  /\ rejected (handle ResetAllSelections st) = ∅
  /\ df (handle ResetAllSelections st) = df st
  /\ (forall id : Z,
        contact_status (handle ResetAllSelections st) !! id = contact_status st !! id
        /\ get_contact_status (handle ResetAllSelections st) id = get_contact_status st id
        /\ ratings (handle ResetAllSelections st) !! id = ratings st !! id
        /\ interview_scheduled (handle ResetAllSelections st) !! id
           = interview_scheduled st !! id
        /\ get_remarks (handle ResetAllSelections st) id = get_remarks st id).
Proof.
  cbn [handle]. unfold reset_all_selections, set_dispositions,
    get_contact_status, get_remarks. cbn.
  repeat split; reflexivity.
Qed.

(** ** The contact-status map only grows *)

Lemma set_fold_insert_dom (v : string) (m : gmap Z string) (X : gset Z) :
  dom m ⊆ dom (set_fold (fun id m => <[id := v]> m) m X).
Proof.
  apply (set_fold_ind_L (fun r _ => dom m ⊆ dom r)); [done |].
  intros x Y r _ IH. rewrite dom_insert_L. set_solver.
Qed.

Lemma iterrows_keeps_contacts body (rs : list (gmap string cell)) (st : session_state) :
  (forall r s s', body r s = Ok s' -> keeps_contacts s s') ->
  keeps_contacts st (iterrows body rs st).
Proof.
  intros Hbody. apply (iterrows_invariant (keeps_contacts st)); [| by unfold keeps_contacts].
  intros r s s' Hs H. apply Hbody in H. unfold keeps_contacts in *. set_solver.
Qed.

Lemma keeps_contacts_same (st st' : session_state) :
  contact_status st' = contact_status st -> keeps_contacts st st'.
Proof. unfold keeps_contacts. by intros ->. Qed.

Lemma handle_keeps_contacts (a : action) (st : session_state) :
  a <> UploadNewFile -> keeps_contacts st (handle a st).
Proof.
  intros Ha.
  destruct a; cbn [handle]; try done;
    try (apply iterrows_keeps_contacts; intros r s s' H; invert_ok;
         unfold keeps_contacts; cbn; rewrite ?dom_insert_L; set_solver).
  - by apply keeps_contacts_same.
  - by apply keeps_contacts_same.
  - by apply keeps_contacts_same.
  - unfold contact_select. destruct (contact_options !! choice);
      [| by apply keeps_contacts_same].
    case_decide; [by apply keeps_contacts_same |].
    unfold keeps_contacts; cbn. rewrite dom_insert_L. set_solver.
  - unfold rating_select. destruct (rating_options !! choice);
      [| by apply keeps_contacts_same].
    case_decide; by apply keeps_contacts_same.
  - unfold schedule_click.
    destruct (interview_scheduled st !! row_id0); by apply keeps_contacts_same.
  - unfold cancel_click.
    destruct (interview_scheduled st !! row_id0); by apply keeps_contacts_same.
  - unfold save_remark_click. destruct (str_truthy _); by apply keeps_contacts_same.
  - unfold keeps_contacts; cbn. apply set_fold_insert_dom.
  - by apply keeps_contacts_same.
Qed.

Lemma run_keeps_contacts (a : action) (st : session_state) :
  a <> UploadNewFile -> keeps_contacts st (run a st).
Proof.
  intros Ha. unfold run. destruct (df st) eqn:E.
  - by apply handle_keeps_contacts.
  - destruct a; try (by apply keeps_contacts_same).
    unfold upload_file. rewrite E.
    destruct (load_data parsed); by apply keeps_contacts_same.
Qed.

(** C10. No event other than Upload New File removes an entry of the
    contact-status map (setting a status back to Not Contacted, the bulk
    mark buttons and Reset All Selections included), so the Contacted
    count, the size of the map, never decreases; Upload New File empties
    the map. *)
Theorem contact_entries_never_removed (a : action) (st : session_state) :
  a <> UploadNewFile ->
  (forall id : Z,
     is_Some (contact_status st !! id) -> is_Some (contact_status (run a st) !! id))
  /\ dict_len (contact_status st) <= dict_len (contact_status (run a st))
  /\ contact_status (handle UploadNewFile st) = ∅.
Proof.
  intros Ha. pose proof (run_keeps_contacts a st Ha) as Hk.
  unfold keeps_contacts in Hk. split; [| split].
  - intros id Hid. apply elem_of_dom. apply Hk. by apply elem_of_dom.
  - unfold dict_len. apply Nat2Z.inj_le.
    rewrite <- !size_dom. by apply subseteq_size.
  - reflexivity.
Qed.

Lemma contact_entries_never_removed_witness :
  (forall id : Z,
     is_Some (contact_status (run (ContactSelect 0 2) sample_state) !! id) ->
     is_Some (contact_status
                (run (ContactSelect 0 0) (run (ContactSelect 0 2) sample_state)) !! id))
  /\ dict_len (contact_status (run (ContactSelect 0 2) sample_state))
     <= dict_len (contact_status
                    (run (ContactSelect 0 0) (run (ContactSelect 0 2) sample_state)))
  /\ contact_status (handle UploadNewFile (run (ContactSelect 0 2) sample_state)) = ∅.
Proof.
  apply (contact_entries_never_removed (ContactSelect 0 0)
           (run (ContactSelect 0 2) sample_state)).
  discriminate.
Defined.

(** ** The overview on a file without rows *)

(** C2. On a dataset without candidates each of the three percentages of
    the overview divides by [len(df) = 0]: the script raises
    [ZeroDivisionError] instead of showing 0.0%. *)
Theorem dashboard_overview_empty_dataset (cols : list string) (st : session_state) :
  exists frame,
    load_data (Ok {| columns := cols; rows := [] |}) = Some frame
    /\ len frame = 0
    /\ percentage (set_len (shortlisted st)) (len frame) = Raise ZeroDivisionError
    /\ percentage (set_len (rejected st)) (len frame) = Raise ZeroDivisionError
    /\ percentage (len frame - set_len (shortlisted st) - set_len (rejected st))
         (len frame) = Raise ZeroDivisionError
    /\ dashboard_overview frame st = Raise ZeroDivisionError.
Proof.
  eexists. split; [reflexivity |]. repeat split.
Qed.

Example header_only_file :
  exists frame,
    df (run (UploadFile (Ok empty_raw)) initial_state) = Some frame
    /\ dashboard_overview frame (run (UploadFile (Ok empty_raw)) initial_state)
       = Raise ZeroDivisionError.
Proof. eexists. split; reflexivity. Qed.

Example overview_of_sample :
  dashboard_overview sample_df (run (ShortlistClick 1) sample_state)
  = Ok [mkMetric "Total Applications" 3 None;
        mkMetric "Shortlisted" 1 (Some (Qmake 100 3));
        mkMetric "Rejected" 0 (Some (Qmake 0 3));
        mkMetric "Pending" 2 (Some (Qmake 200 3));
        mkMetric "Contacted" 0 None;
        mkMetric "Interviews" 0 None].
Proof. vm_compute. reflexivity. Qed.

(** ** Ready for onboarding *)

Lemma elem_of_ready_candidates (st : session_state) (id : Z) :
  id ∈ ready_candidates st <->
  id ∈ shortlisted st
  /\ exists status, contact_status st !! id = Some status
                    /\ py_in "Interested" status = true.
Proof.
  unfold ready_candidates. rewrite list_elem_of_In, filter_In, <- list_elem_of_In.
  rewrite elem_of_elements. unfold is_ready.
  destruct (contact_status st !! id) as [status |]; split.
  - intros [Hs Hp]. eauto.
  - intros [Hs (s' & [= <-] & Hp)]. auto.
  - intros [_ ?]. discriminate.
  - intros [_ (s' & ? & _)]. discriminate.
Qed.

(** C6. A shortlisted candidate whose contact status is Called - Not
    Interested is in the ready list: the test is whether the status text
    contains Interested, which Called - Not Interested does. *)
Theorem not_interested_is_ready (st : session_state) (id : Z) :
  id ∈ shortlisted st ->
  contact_status st !! id = Some "Called - Not Interested" ->
  id ∈ ready_candidates st /\ 1 <= candidates_ready st.
Proof.
  intros Hs Hc.
  assert (Hin : id ∈ ready_candidates st).
  { apply elem_of_ready_candidates. split; [exact Hs |]. eexists. split; [exact Hc |].
    reflexivity. }
  split; [exact Hin |].
  unfold candidates_ready. destruct (ready_candidates st); [by inversion Hin |].
  cbn [length]. lia.
Qed.

Lemma not_interested_is_ready_witness :
  let st := run (ContactSelect 1 3) (run (ShortlistClick 1) sample_state) in
  get_contact_status st 1 = "Called - Not Interested"
  /\ ready_candidates st = [1]
  /\ 1 ∈ ready_candidates st /\ 1 <= candidates_ready st.
Proof.
  split; [reflexivity |]. split; [vm_compute; reflexivity |].
  apply (not_interested_is_ready
           (run (ContactSelect 1 3) (run (ShortlistClick 1) sample_state)) 1).
  - vm_compute. reflexivity.
  - vm_compute. reflexivity.
Defined.

(** ** Remarks *)

Lemma lstrip_whitespace_only (s : string) :
  whitespace_only s = true -> lstrip s = "".
Proof.
  assert (H : forall n s, (String.length s <= n)%nat ->
                          whitespace_only s = true -> lstrip s = "").
  { clear s. induction n as [| n IH]; intros s Hlen Hws.
    - destruct s; [reflexivity | cbn in Hlen; lia].
    - destruct s as [| a s1]; [reflexivity |]. cbn in Hlen, Hws |- *.
      destruct (is_space1 a); [apply IH; [lia | exact Hws] |].
      destruct s1 as [| b s2]; [discriminate |]. cbn in Hlen.
      destruct (is_space2 a b); [apply IH; [lia | exact Hws] |].
      destruct s2 as [| c s3]; [discriminate |]. cbn in Hlen.
      apply andb_prop in Hws as [-> Hws]. apply IH; [lia | exact Hws]. }
  apply (H (String.length s)). lia.
Qed.

Lemma strip_whitespace_only (s : string) :
  whitespace_only s = true -> strip s = "".
Proof.
  intros H. unfold strip. rewrite lstrip_whitespace_only by exact H. reflexivity.
Qed.

Lemma get_remarks_add_remark (now : string) (id : Z) (text : string) (st : session_state) :
  get_remarks (add_remark now id text st) id
  = get_remarks st id ++ [{| timestamp := now; remark := text |}].
Proof.
  unfold get_remarks at 1. cbn. by rewrite lookup_insert_eq.
Qed.

(** C3, as the script has it.  On an empty or white-space-only text the
    Save handler does not call [add_remark]: the session state is
    unchanged and nothing is shown, neither an error nor a confirmation.
    [add_remark] itself checks nothing and appends the text it is given. *)
Theorem blank_remark_dropped_silently
    (now : string) (id : Z) (text : string) (st : session_state) :
  whitespace_only text = true ->
  save_remark_click now id text st = (st, [])
  /\ get_remarks (fst (save_remark_click now id text st)) id = get_remarks st id
  /\ get_remarks (add_remark now id text st) id
     = get_remarks st id ++ [{| timestamp := now; remark := text |}].
Proof.
  intros Hws.
  assert (E : save_remark_click now id text st = (st, [])).
  { unfold save_remark_click. by rewrite strip_whitespace_only. }
  rewrite E. repeat split. apply get_remarks_add_remark.
Qed.

Lemma blank_remark_dropped_silently_witness :
  save_remark_click "2024-03-14 10:00:00" 0 "   " sample_state = (sample_state, [])
  /\ get_remarks (fst (save_remark_click "2024-03-14 10:00:00" 0 "   " sample_state)) 0
     = get_remarks sample_state 0
  /\ get_remarks (add_remark "2024-03-14 10:00:00" 0 "   " sample_state) 0
     = get_remarks sample_state 0
       ++ [{| timestamp := "2024-03-14 10:00:00"; remark := "   " |}].
Proof.
  apply (blank_remark_dropped_silently "2024-03-14 10:00:00" 0 "   " sample_state).
  reflexivity.
Defined.

(** C3 as stated fails: for the white-space-only text of three blanks the
    Save handler reports no error, and [add_remark] called with it appends
    it to the log. *)
Lemma blank_remark_not_reported :
  whitespace_only "   " = true
  /\ reports_error (snd (save_remark_click "2024-03-14 10:00:00" 0 "   " sample_state))
     = false
  /\ get_remarks (add_remark "2024-03-14 10:00:00" 0 "   " sample_state) 0
     <> get_remarks sample_state 0.
Proof.
  split; [reflexivity |]. split; [reflexivity |].
  rewrite get_remarks_add_remark. vm_compute. discriminate.
Qed.

Example remark_saved :
  save_remark_click "2024-03-14 10:00:00" 0 " Called, interested " sample_state
  = (add_remark "2024-03-14 10:00:00" 0 " Called, interested " sample_state,
     [Success "Remark saved!"]).
Proof. reflexivity. Qed.

(** ** Columns of a frame *)

Lemma getitem_length (frame : DataFrame) (c : string) (series : list cell) :
  getitem frame c = Ok series -> length series = length (rows frame).
Proof.
  unfold getitem. case_decide; [| discriminate].
  intros [= <-]. apply length_map.
Qed.

Lemma getitem_Ok (frame : DataFrame) (c : string) :
  c ∈ columns frame -> getitem frame c = Ok (map (fun r => loc r c) (rows frame)).
Proof. intros H. unfold getitem. by rewrite decide_True. Qed.

Lemma setitem_length (frame : DataFrame) (c : string) (values : list cell) :
  length values = length (rows frame) ->
  length (rows (setitem frame c values)) = length (rows frame).
Proof. intros H. cbn. rewrite length_zip_with. lia. Qed.

Lemma setitem_has_column (frame : DataFrame) (c : string) (values : list cell) :
  c ∈ columns (setitem frame c values).
Proof. cbn. case_decide; [done |]. apply elem_of_app. right. by apply list_elem_of_singleton. Qed.

Lemma setitem_keeps_column (frame : DataFrame) (c c0 : string) (values : list cell) :
  c0 <> c -> (c0 ∈ columns (setitem frame c values) <-> c0 ∈ columns frame).
Proof.
  intros Hne. cbn. case_decide; [done |].
  rewrite elem_of_app, list_elem_of_singleton. tauto.
Qed.

Lemma loc_zip_with_insert_ne (c c0 : string) (rs : list (gmap string cell))
    (values : list cell) :
  c0 <> c -> length values = length rs ->
  map (fun r => loc r c0) (zip_with (fun r v => <[c := v]> r) rs values)
  = map (fun r => loc r c0) rs.
Proof.
  intros Hne. revert values.
  induction rs as [| r rs IH]; intros [| v values] Hlen; try discriminate; [done |].
  cbn. f_equal; [| apply IH; by injection Hlen].
  unfold loc. by rewrite lookup_insert_ne.
Qed.

Lemma loc_zip_with_insert_eq (c : string) (rs : list (gmap string cell))
    (values : list cell) :
  length values = length rs ->
  map (fun r => loc r c) (zip_with (fun r v => <[c := v]> r) rs values) = values.
Proof.
  revert values.
  induction rs as [| r rs IH]; intros [| v values] Hlen; try discriminate; [done |].
  cbn. f_equal; [| apply IH; by injection Hlen].
  unfold loc. by rewrite lookup_insert_eq.
Qed.

Lemma getitem_setitem_ne (frame : DataFrame) (c c0 : string) (values : list cell) :
  c0 <> c -> length values = length (rows frame) ->
  getitem (setitem frame c values) c0 = getitem frame c0.
Proof.
  intros Hne Hlen. unfold getitem.
  destruct (decide (c0 ∈ columns frame)) as [Hin | Hout].
  - rewrite decide_True by (by apply setitem_keeps_column).
    f_equal. cbn [rows setitem]. by apply loc_zip_with_insert_ne.
  - rewrite decide_False; [done |]. by rewrite setitem_keeps_column.
Qed.

Lemma getitem_setitem_eq (frame : DataFrame) (c : string) (values : list cell) :
  length values = length (rows frame) ->
  getitem (setitem frame c values) c = Ok values.
Proof.
  intros Hlen. unfold getitem.
  rewrite decide_True by apply setitem_has_column.
  f_equal. cbn [rows setitem]. by apply loc_zip_with_insert_eq.
Qed.

Lemma range_cells_length (n : nat) : length (range_cells n) = n.
Proof. unfold range_cells. by rewrite length_map, length_seq. Qed.


(** ** The full report *)




Example full_report_download_sample :
  download_full_report sample_to_csv rated_df
    (run (UploadFile (Ok rated_raw)) initial_state)
  = Ok (String.concat ""
          ["Your Full name,Rating,ID,Status,Contact_Status,Interview_Date";
           String newline "";
           "Asha,0,0,⏳ Pending,Not Contacted,Not Scheduled";
           String newline ""])
  /\ load_file sample_read_csv "" = None.
Proof. split; vm_compute; reflexivity. Qed.


(** ** Filtering *)

Lemma narrowed_refl (frame : DataFrame) : narrowed frame frame.
Proof. by split. Qed.

Lemma narrowed_trans (a b c : DataFrame) : narrowed a b -> narrowed b c -> narrowed a c.
Proof. intros [Hc1 Hr1] [Hc2 Hr2]. split; [congruence | auto]. Qed.

Lemma select_map (test : gmap string cell -> bool) (rs : list (gmap string cell)) :
  select rs (map test rs) = List.filter test rs.
Proof.
  induction rs as [| r rs IH]; [done |]. cbn. rewrite IH. by destruct (test r).
Qed.

Lemma filter_on_Ok (frame : DataFrame) (c : string) (test : cell -> bool) :
  c ∈ columns frame ->
  filter_on frame c test
  = Ok {| columns := columns frame;
          rows := List.filter (fun r => test (loc r c)) (rows frame) |}.
Proof.
  intros Hc. unfold filter_on. rewrite getitem_Ok by exact Hc. cbn.
  unfold getitem_mask. by rewrite map_map, select_map.
Qed.

Lemma filter_on_inv (frame out : DataFrame) (c : string) (test : cell -> bool) :
  filter_on frame c test = Ok out ->
  columns out = columns frame
  /\ rows out = List.filter (fun r => test (loc r c)) (rows frame).
Proof.
  intros H. destruct (decide (c ∈ columns frame)) as [Hc | Hc].
  - rewrite filter_on_Ok in H by exact Hc. by injection H as <-.
  - unfold filter_on, getitem in H. by rewrite decide_False in H.
Qed.

Lemma filter_on_narrowed (frame out : DataFrame) (c : string) (test : cell -> bool) :
  filter_on frame c test = Ok out -> narrowed frame out.
Proof.
  intros [Hc Hr]%filter_on_inv. split; [exact Hc |].
  intros r. rewrite Hr, !list_elem_of_In, filter_In. tauto.
Qed.

Lemma select_sublist (rs : list (gmap string cell)) (mask : list bool) :
  select rs mask `sublist_of` rs.
Proof.
  revert mask. induction rs as [| r rs IH]; intros [| b mask]; cbn;
    try apply sublist_nil_l.
  destruct b; [apply sublist_skip | apply sublist_cons]; apply IH.
Qed.

Lemma search_filter_inv (str_contains : string -> list string -> result (list bool))
    (frame out : DataFrame) (filters : Filters) :
  search_filter str_contains frame filters = Ok out ->
  columns out = columns frame
  /\ rows out `sublist_of` rows frame
  /\ (f_search filters = "" -> out = frame).
Proof.
  unfold search_filter. destruct (f_search filters) as [| a term] eqn:E; cbn.
  - intros [= <-]. done.
  - intros H. apply bind_Ok in H as (mask & _ & [= <-]). cbn.
    split; [done |]. split; [apply select_sublist | discriminate].
Qed.

Lemma search_filter_narrowed (str_contains : string -> list string -> result (list bool))
    (frame out : DataFrame) (filters : Filters) :
  search_filter str_contains frame filters = Ok out -> narrowed frame out.
Proof.
  intros (Hc & Hr & _)%search_filter_inv. split; [exact Hc |].
  intros r Hin. eapply elem_of_sublist; [exact Hin | exact Hr].
Qed.

Lemma categorical_narrowed (frame out : DataFrame) (c value : string) :
  categorical frame c value = Ok out -> narrowed frame out.
Proof.
  unfold categorical. case_decide.
  - intros [= <-]. apply narrowed_refl.
  - apply filter_on_narrowed.
Qed.

Lemma categorical_total (frame : DataFrame) (c value : string) :
  c ∈ columns frame -> exists out, categorical frame c value = Ok out.
Proof.
  intros Hc. unfold categorical. case_decide; [eauto |].
  rewrite filter_on_Ok by exact Hc. eauto.
Qed.

Lemma contact_filter_narrowed st (frame out : DataFrame) (filters : Filters) :
  contact_filter st frame filters = Ok out -> narrowed frame out.
Proof.
  unfold contact_filter. repeat case_decide;
    first [ intros [= <-]; apply narrowed_refl | apply filter_on_narrowed ].
Qed.

Lemma contact_filter_total st (frame : DataFrame) (filters : Filters) :
  "ID" ∈ columns frame -> exists out, contact_filter st frame filters = Ok out.
Proof.
  intros Hc. unfold contact_filter.
  repeat case_decide; rewrite ?filter_on_Ok by exact Hc; eauto.
Qed.

Lemma interview_filter_narrowed st (frame out : DataFrame) (filters : Filters) :
  interview_filter st frame filters = Ok out -> narrowed frame out.
Proof.
  unfold interview_filter. repeat case_decide;
    first [ intros [= <-]; apply narrowed_refl | apply filter_on_narrowed ].
Qed.

Lemma interview_filter_total st (frame : DataFrame) (filters : Filters) :
  "ID" ∈ columns frame -> exists out, interview_filter st frame filters = Ok out.
Proof.
  intros Hc. unfold interview_filter.
  repeat case_decide; rewrite ?filter_on_Ok by exact Hc; eauto.
Qed.

Lemma view_mode_filter_narrowed st (frame out : DataFrame) (filters : Filters) :
  view_mode_filter st frame filters = Ok out -> narrowed frame out.
Proof.
  unfold view_mode_filter. repeat case_decide;
    first [ intros [= <-]; apply narrowed_refl | apply filter_on_narrowed ].
Qed.

Lemma view_mode_filter_total st (frame : DataFrame) (filters : Filters) :
  "ID" ∈ columns frame -> exists out, view_mode_filter st frame filters = Ok out.
Proof.
  intros Hc. unfold view_mode_filter.
  repeat case_decide; rewrite ?filter_on_Ok by exact Hc; eauto.
Qed.

Lemma zip_with_map_r {A B C : Type} (f : A -> B -> C) (h : A -> B) (l : list A) :
  zip_with f l (map h l) = map (fun a => f a (h a)) l.
Proof. induction l as [| a l IH]; [done |]. cbn. by rewrite IH. Qed.

Lemma has_filter_columns_spec (frame : DataFrame) :
  has_filter_columns frame = true -> forall c, c ∈ filter_columns -> c ∈ columns frame.
Proof.
  unfold has_filter_columns. rewrite forallb_forall.
  intros H c Hc. eapply bool_decide_eq_true_1, H. by apply list_elem_of_In.
Qed.

Section AgeFilter.

Variable to_datetime : cell -> option date.
Variable today : date.
Variable str_contains : string -> list string -> result (list bool).

(** [calculate_age] gives [None] for a missing, an empty and an unread
    birth date, and for no other. *)
Lemma calculate_age_None (v : cell) :
  calculate_age to_datetime today v = None <-> unreadable_birth_date to_datetime v.
Proof.
  unfold calculate_age, unreadable_birth_date. split.
  - destruct v as [| [| a s] | n]; auto;
      destruct (to_datetime _); auto; discriminate.
  - intros [-> | [-> | H]]; [done | done |].
    destruct v as [| [| a s] | n]; try done; by rewrite H.
Qed.

Lemma age_bound_inv (frame out : DataFrame) (bound : option Z) (cmp : cell -> Z -> bool) :
  age_bound frame bound cmp = Ok out ->
  narrowed frame out
  /\ forall n, bound = Some n -> n <> 0 ->
               forall r, r ∈ rows out -> cmp (loc r "Age") n = true.
Proof.
  unfold age_bound. destruct bound as [n |]; cbn [truthy].
  - destruct (n =? 0) eqn:E; cbn [negb].
    + intros [= <-]. split; [apply narrowed_refl |].
      intros k [= <-] Hk. apply Z.eqb_eq in E. contradiction.
    + intros H. split; [by eapply filter_on_narrowed |].
      intros k [= <-] _ r Hr. apply filter_on_inv in H as [_ Hrows].
      rewrite Hrows, list_elem_of_In, filter_In in Hr. tauto.
  - intros [= <-]. split; [apply narrowed_refl |]. discriminate.
Qed.

Lemma age_bound_total (frame : DataFrame) (bound : option Z) (cmp : cell -> Z -> bool) :
  "Age" ∈ columns frame -> exists out, age_bound frame bound cmp = Ok out.
Proof.
  intros Hc. unfold age_bound. destruct bound as [n |]; [| eauto].
  destruct (truthy (Some n)); [| eauto]. rewrite filter_on_Ok by exact Hc. eauto.
Qed.

Lemma age_filter_total (frame : DataFrame) (filters : Filters) :
  col_age ∈ columns frame ->
  exists out, age_filter to_datetime today frame filters = Ok out
              /\ forall c, c ∈ columns frame -> c ∈ columns out.
Proof.
  intros Hc. unfold age_filter.
  destruct (truthy (f_min_age filters) || truthy (f_max_age filters)); [| eauto].
  rewrite getitem_Ok by exact Hc. cbn.
  set (aged := setitem frame "Age" _).
  assert (Ha : "Age" ∈ columns aged) by apply setitem_has_column.
  destruct (age_bound_total aged (f_min_age filters) cell_ge Ha) as [m Em].
  rewrite Em. cbn.
  pose proof (age_bound_inv _ _ _ _ Em) as [[Hcm _] _].
  destruct (age_bound_total m (f_max_age filters) cell_le) as [out Eout].
  { by rewrite Hcm. }
  exists out. split; [exact Eout |].
  pose proof (age_bound_inv _ _ _ _ Eout) as [[Hco _] _].
  intros c Hin. rewrite Hco, Hcm. subst aged. cbn.
  case_decide; [done |]. apply elem_of_app. by left.
Qed.

Lemma age_filter_inv (frame out : DataFrame) (filters : Filters) :
  truthy (f_min_age filters) || truthy (f_max_age filters) = true ->
  age_filter to_datetime today frame filters = Ok out ->
  forall r', r' ∈ rows out ->
    exists r age,
      r ∈ rows frame /\ r' = with_age to_datetime today r
      /\ calculate_age to_datetime today (loc r col_age) = Some age
      /\ (forall n, f_min_age filters = Some n -> n <> 0 -> n <= age)
      /\ (forall n, f_max_age filters = Some n -> n <> 0 -> age <= n).
Proof.
  intros Hset H. unfold age_filter in H. rewrite Hset in H.
  apply bind_Ok in H as (series & Hseries & H).
  apply bind_Ok in H as (m & Hmin & Hmax).
  assert (Hs : series = map (fun r => loc r col_age) (rows frame)).
  { unfold getitem in Hseries. case_decide; [| discriminate]. by injection Hseries. }
  subst series.
  apply age_bound_inv in Hmin as [[_ Hsub1] Hge].
  apply age_bound_inv in Hmax as [[_ Hsub2] Hle].
  intros r' Hr'.
  assert (Haged : exists r, r ∈ rows frame /\ r' = with_age to_datetime today r).
  { apply Hsub2, Hsub1 in Hr'. cbn [rows setitem] in Hr'.
    rewrite map_map, zip_with_map_r in Hr'.
    apply list_elem_of_In, in_map_iff in Hr' as (r & <- & Hr).
    exists r. split; [by apply list_elem_of_In | reflexivity]. }
  destruct Haged as (r & Hr & ->).
  assert (Hloc : loc (with_age to_datetime today r) "Age"
                 = age_cell (calculate_age to_datetime today (loc r col_age))).
  { unfold loc at 1, with_age. by rewrite lookup_insert_eq. }
  specialize (fun n E Hn => Hge n E Hn _ (Hsub2 _ Hr')).
  specialize (fun n E Hn => Hle n E Hn _ Hr').
  rewrite Hloc in Hge, Hle.
  destruct (calculate_age to_datetime today (loc r col_age)) as [age |] eqn:Eage.
  - exists r, age. repeat split; try done.
    + intros n E Hn. specialize (Hge n E Hn). cbn in Hge. lia.
    + intros n E Hn. specialize (Hle n E Hn). cbn in Hle. lia.
  - exfalso. apply orb_prop in Hset as [Ht | Ht].
    + destruct (f_min_age filters) as [n |]; [| discriminate].
      cbn in Ht. specialize (Hge n eq_refl). cbn in Hge.
      destruct (n =? 0) eqn:E0; [discriminate |]. apply Z.eqb_neq in E0.
      specialize (Hge E0). discriminate.
    + destruct (f_max_age filters) as [n |]; [| discriminate].
      cbn in Ht. specialize (Hle n eq_refl). cbn in Hle.
      destruct (n =? 0) eqn:E0; [discriminate |]. apply Z.eqb_neq in E0.
      specialize (Hle E0). discriminate.
Qed.

Lemma apply_filters_inv st (df0 out : DataFrame) (filters : Filters) :
  apply_filters to_datetime today str_contains st df0 filters = Ok out ->
  exists pre aged,
    narrowed df0 pre /\ age_filter to_datetime today pre filters = Ok aged
    /\ narrowed aged out.
Proof.
  unfold apply_filters. cbn zeta. intros H.
  apply bind_Ok in H as (d0 & N0%search_filter_narrowed & H).
  apply bind_Ok in H as (d1 & N1%categorical_narrowed & H).
  apply bind_Ok in H as (d2 & N2%categorical_narrowed & H).
  apply bind_Ok in H as (d3 & N3%categorical_narrowed & H).
  apply bind_Ok in H as (d4 & N4%categorical_narrowed & H).
  apply bind_Ok in H as (d5 & N5%categorical_narrowed & H).
  apply bind_Ok in H as (d6 & N6%categorical_narrowed & H).
  apply bind_Ok in H as (d7 & N7%categorical_narrowed & H).
  apply bind_Ok in H as (d8 & N8%contact_filter_narrowed & H).
  apply bind_Ok in H as (d9 & N9%interview_filter_narrowed & H).
  apply bind_Ok in H as (d10 & Hage & N11%view_mode_filter_narrowed).
  exists d9, d10. split; [| by split].
  do 10 (eapply narrowed_trans; [eassumption |]).
  apply narrowed_refl.
Qed.

Lemma bind_total {A B : Type} (P : A -> Prop) (m : result A) (f : A -> result B) :
  (exists a, m = Ok a /\ P a) ->
  (forall a, P a -> exists b, f a = Ok b) ->
  exists b, m ≫= f = Ok b.
Proof. intros (a & -> & Ha) Hf. cbn. by apply Hf. Qed.

Lemma narrowed_carries (frame out : DataFrame) :
  narrowed frame out -> carries_filter_columns frame -> carries_filter_columns out.
Proof. intros [Hc _] H c Hin. rewrite Hc. by apply H. Qed.

Lemma categorical_step (frame : DataFrame) (c value : string) :
  c ∈ filter_columns -> carries_filter_columns frame ->
  exists out, categorical frame c value = Ok out /\ carries_filter_columns out.
Proof.
  intros Hc Hk. destruct (categorical_total frame c value (Hk c Hc)) as [out E].
  exists out. split; [exact E |]. eapply narrowed_carries; [| exact Hk].
  by eapply categorical_narrowed.
Qed.

Lemma id_in_filter_columns : "ID" ∈ filter_columns.
Proof. unfold filter_columns. set_solver. Qed.

Lemma apply_filters_total st (df0 searched : DataFrame) (filters : Filters) :
  has_filter_columns df0 = true ->
  search_filter str_contains df0 filters = Ok searched ->
  exists out, apply_filters to_datetime today str_contains st df0 filters = Ok out.
Proof.
  intros Hcols Hsearch.
  pose proof (has_filter_columns_spec df0 Hcols) as Hc. clear Hcols.
  unfold apply_filters. cbn zeta. rewrite Hsearch. cbn.
  assert (H0 : carries_filter_columns searched).
  { eapply narrowed_carries; [by eapply search_filter_narrowed | exact Hc]. }
  revert H0. generalize searched. clear.
  intros d7 H7.
  do 7 (apply (bind_total carries_filter_columns);
        [ apply categorical_step; [unfold filter_columns; set_solver | exact H7]
        | clear d7 H7; intros d7 H7 ]).
  apply (bind_total carries_filter_columns).
  { destruct (contact_filter_total st d7 filters) as [out E];
      [by apply H7, id_in_filter_columns |].
    exists out. split; [exact E |].
    eapply narrowed_carries; [by eapply contact_filter_narrowed | exact H7]. }
  clear. intros d8 H8.
  apply (bind_total carries_filter_columns).
  { destruct (interview_filter_total st d8 filters) as [out E];
      [by apply H8, id_in_filter_columns |].
    exists out. split; [exact E |].
    eapply narrowed_carries; [by eapply interview_filter_narrowed | exact H8]. }
  clear. intros d9 H9.
  apply (bind_total carries_filter_columns).
  { destruct (age_filter_total d9 filters) as (out & E & Hsub).
    { apply H9. unfold filter_columns. set_solver. }
    exists out. split; [exact E |]. intros c Hin. by apply Hsub, H9. }
  clear. intros d10 H10.
  apply view_mode_filter_total. by apply H10, id_in_filter_columns.
Qed.

End AgeFilter.

(** C8. [calculate_age] gives [None] exactly for a birth date that is
    missing, empty or not read by [pd.to_datetime].  With a minimum or a
    maximum age set (or both), every row the filter returns is a row of
    the dataset, extended with its [Age] cell, whose birth date is read
    and gave an age; a row of the dataset whose birth date is missing,
    empty or unread is not in the result, whichever bound is set.  On a
    dataset with the columns the filters read, the filter returns
    whenever its search block does, so with an empty search it always
    does. *)
Theorem age_filter_excludes_unparseable
    (to_datetime : cell -> option date) (today : date)
    (str_contains : string -> list string -> result (list bool))
    (st : session_state) (df0 : DataFrame) (filters : Filters) :
  truthy (f_min_age filters) || truthy (f_max_age filters) = true ->
  (forall v, calculate_age to_datetime today v = None
             <-> (v = NaN \/ v = Str "" \/ to_datetime v = None))
  /\ (forall out,
        apply_filters to_datetime today str_contains st df0 filters = Ok out ->
        (forall r', r' ∈ rows out ->
           exists r age,
             r ∈ rows df0 /\ r' = with_age to_datetime today r
             /\ calculate_age to_datetime today (loc r col_age) = Some age
             /\ ~ unreadable_birth_date to_datetime (loc r col_age))
        /\ (forall r', r' ∈ rows out ->
              ~ unreadable_birth_date to_datetime (loc r' col_age))
        /\ (forall r, r ∈ rows df0 ->
              unreadable_birth_date to_datetime (loc r col_age) ->
              with_age to_datetime today r ∉ rows out))
  /\ (has_filter_columns df0 = true ->
      (forall searched,
         search_filter str_contains df0 filters = Ok searched ->
         exists out,
           apply_filters to_datetime today str_contains st df0 filters = Ok out)
      /\ (f_search filters = "" ->
          exists out,
            apply_filters to_datetime today str_contains st df0 filters = Ok out)).
Proof.
  intros Hset.
  split; [apply calculate_age_None |]. split.
  - intros out E.
    apply apply_filters_inv in E as (pre & aged & [_ Hpre] & Hage & [_ Hout]).
    assert (Hrows : forall r', r' ∈ rows out ->
              exists r age,
                r ∈ rows df0 /\ r' = with_age to_datetime today r
                /\ calculate_age to_datetime today (loc r col_age) = Some age
                /\ ~ unreadable_birth_date to_datetime (loc r col_age)).
    { intros r' Hr'. apply Hout in Hr'.
      destruct (age_filter_inv to_datetime today pre aged filters Hset Hage r' Hr')
        as (r & age & Hr & -> & Hcalc & _).
      exists r, age. repeat split; auto.
      intros Hbad. apply (proj2 (calculate_age_None to_datetime today _)) in Hbad.
      congruence. }
    split; [exact Hrows |]. split.
    + intros r' Hr'. destruct (Hrows _ Hr') as (r & age & _ & -> & _ & Hread).
      unfold with_age, loc at 1. rewrite lookup_insert_ne by discriminate.
      exact Hread.
    + intros r Hr Hbad Hin.
      destruct (Hrows _ Hin) as (r2 & age & _ & Heq & Hsome & _).
      apply (proj2 (calculate_age_None to_datetime today _)) in Hbad.
      assert (Hcell : with_age to_datetime today r !! "Age"
                      = with_age to_datetime today r2 !! "Age") by (by rewrite Heq).
      unfold with_age in Hcell. rewrite !lookup_insert_eq, Hbad, Hsome in Hcell.
      discriminate.
  - intros Hcols. split.
    + intros searched Hsearch.
      by apply (apply_filters_total to_datetime today str_contains st df0 searched).
    + intros Hempty.
      apply (apply_filters_total to_datetime today str_contains st df0 df0);
        [exact Hcols |].
      unfold search_filter. by rewrite Hempty.
Qed.

(** On [dated_df], with a maximum age only: the filter returns, and none
    of the three candidates without a readable birth date is in the
    result. *)
Lemma age_filter_excludes_unparseable_witness :
  exists out,
    apply_filters sample_to_datetime sample_today literal_contains
      dated_state dated_df max_age_60 = Ok out
    /\ (forall r, r ∈ rows dated_df ->
          (loc r col_age = NaN \/ loc r col_age = Str ""
           \/ sample_to_datetime (loc r col_age) = None) ->
          with_age sample_to_datetime sample_today r ∉ rows out)
    /\ (forall r', r' ∈ rows out ->
          exists r age,
            r ∈ rows dated_df /\ r' = with_age sample_to_datetime sample_today r
            /\ calculate_age sample_to_datetime sample_today (loc r col_age) = Some age).
Proof.
  destruct (age_filter_excludes_unparseable sample_to_datetime sample_today
              literal_contains dated_state dated_df max_age_60)
    as (_ & Hrows & Hreturns); [reflexivity |].
  destruct Hreturns as [_ Hempty]; [vm_compute; reflexivity |].
  destruct (Hempty eq_refl) as [out E].
  destruct (Hrows out E) as (Hkept & _ & Hout).
  exists out. split; [exact E |]. split; [exact Hout |].
  intros r' Hr'. destruct (Hkept r' Hr') as (r & age & Hr & Heq & Hage & _).
  exists r, age. auto.
Defined.

(** The candidates of [dated_df] have the birth dates 15-03-2000, the
    empty text, a text that is no date and a missing value: a minimum
    age, a maximum age and both together keep the first only. *)
Example age_filter_sample :
  frame_ids dated_df = [0; 1; 2; 3]
  /\ map (fun r => loc r col_age) (rows dated_df)
     = [Str "15-03-2000"; Str ""; Str "March 2001"; NaN]
  /\ map (fun r => calculate_age sample_to_datetime sample_today (loc r col_age))
         (rows dated_df) = [Some 23; None; None; None]
  /\ filtered_ids (apply_filters sample_to_datetime sample_today never_contains
                     dated_state dated_df min_age_18) = Ok [0]
  /\ filtered_ids (apply_filters sample_to_datetime sample_today never_contains
                     dated_state dated_df max_age_60) = Ok [0]
  /\ filtered_ids (apply_filters sample_to_datetime sample_today never_contains
                     dated_state dated_df age_18_to_60) = Ok [0]
  /\ filtered_ids (apply_filters sample_to_datetime sample_today never_contains
                     dated_state dated_df no_filters) = Ok [0; 1; 2; 3].
Proof. repeat split; vm_compute; reflexivity. Qed.

Example age_on_birthday :
  calculate_age sample_to_datetime {| year := 2024; month := 3; day := 14 |}
    (Str "15-03-2000") = Some 23
  /\ calculate_age sample_to_datetime {| year := 2024; month := 3; day := 15 |}
       (Str "15-03-2000") = Some 24.
Proof. split; reflexivity. Qed.

(** ** The contact filter after a status is set back *)

(** C4. After candidate 0 is set to Called - Interested and back to Not
    Contacted, its contact status reads Not Contacted, yet the Contacted
    filter returns it and the Not Contacted filter does not: the filter
    tests for a key of the map, and the key stays. *)
Theorem contact_filter_after_set_back
    (to_datetime : cell -> option date) (today : date)
    (str_contains : string -> list string -> result (list bool)) :
  get_contact_status set_back_state 0 = "Not Contacted"
  /\ contact_status set_back_state !! 0 = Some "Not Contacted"
  /\ filtered_ids (apply_filters to_datetime today str_contains
                     set_back_state sample_df contacted_only) = Ok [0]
  /\ filtered_ids (apply_filters to_datetime today str_contains
                     set_back_state sample_df not_contacted_only) = Ok [1; 2].
Proof. repeat split; vm_compute; reflexivity. Qed.

(** * Further properties of the handlers *)

Lemma iterrows_invariant_in (P : session_state -> Prop)
    (body : gmap string cell -> session_state -> result session_state)
    (rs : list (gmap string cell)) (st : session_state) :
  (forall r s s', r ∈ rs -> P s -> body r s = Ok s' -> P s') ->
  P st -> P (iterrows body rs st).
Proof.
  revert st. induction rs as [| r rs IH]; intros st Hbody Hst; cbn; [exact Hst |].
  destruct (body r st) as [st' | e] eqn:E; [| exact Hst].
  apply IH.
  - intros r' s s' Hr'. apply Hbody. by apply elem_of_cons; right.
  - eapply Hbody; [by apply elem_of_cons; left | exact Hst | exact E].
Qed.

Lemma row_id_in_frame_ids (frame : DataFrame) (r : gmap string cell) (n : Z) :
  r ∈ rows frame -> row_id r = Ok n -> n ∈ frame_ids frame.
Proof.
  intros Hr Hn. unfold frame_ids. apply list_elem_of_omap.
  exists r. split; [exact Hr |]. by rewrite Hn.
Qed.

Lemma state_eq (a b : session_state) :
  df a = df b -> shortlisted a = shortlisted b -> rejected a = rejected b ->
  remarks a = remarks b -> contact_status a = contact_status b ->
  interview_scheduled a = interview_scheduled b -> ratings a = ratings b ->
  a = b.
Proof. destruct a, b; cbn; by intros -> -> -> -> -> -> ->. Qed.

(** X1. Shortlist and Reject are idempotent, and of a Shortlist and a
    Reject of the same id the later one decides. *)
Theorem shortlist_reject_idempotent (id : Z) (st : session_state) :
  shortlist id (shortlist id st) = shortlist id st
  /\ reject id (reject id st) = reject id st
  /\ shortlist id (reject id st) = shortlist id st
  /\ reject id (shortlist id st) = reject id st.
Proof.
  repeat split; apply state_eq; cbn; try reflexivity;
    apply set_eq; intros x; destruct (decide (x = id)); set_solver.
Qed.

Lemma untouched_at_refl (id : Z) (st : session_state) : untouched_at id st st.
Proof. by repeat split. Qed.

Lemma untouched_at_trans (id : Z) (a b c : session_state) :
  untouched_at id a b -> untouched_at id b c -> untouched_at id a c.
Proof.
  intros (H1 & H2 & H3 & H4 & H5 & H6 & H7) (K1 & K2 & K3 & K4 & K5 & K6 & K7).
  repeat split; try congruence; tauto.
Qed.

Lemma shortlist_untouched (id id' : Z) (st : session_state) :
  id <> id' -> untouched_at id st (shortlist id' st).
Proof. intros Hne. unfold untouched_at; cbn. repeat split; set_solver. Qed.

Lemma reject_untouched (id id' : Z) (st : session_state) :
  id <> id' -> untouched_at id st (reject id' st).
Proof. intros Hne. unfold untouched_at; cbn. repeat split; set_solver. Qed.

Lemma reset_disposition_untouched (id id' : Z) (st : session_state) :
  id <> id' -> untouched_at id st (reset_disposition id' st).
Proof. intros Hne. unfold untouched_at; cbn. repeat split; set_solver. Qed.

Lemma set_contact_untouched (id id' : Z) (status : string) (st : session_state) :
  id <> id' ->
  untouched_at id st (set_contact_status (<[id' := status]> (contact_status st)) st).
Proof.
  intros Hne. unfold untouched_at; cbn. repeat split; try done.
  by rewrite lookup_insert_ne.
Qed.

Lemma set_rating_untouched (id id' : Z) (rating : Z) (st : session_state) :
  id <> id' -> untouched_at id st (set_ratings (<[id' := rating]> (ratings st)) st).
Proof.
  intros Hne. unfold untouched_at; cbn. repeat split; try done.
  by rewrite lookup_insert_ne.
Qed.

Lemma iterrows_untouched (id : Z) body (filtered_df : DataFrame) (st : session_state) :
  (forall r s s', r ∈ rows filtered_df -> body r s = Ok s' -> untouched_at id s s') ->
  untouched_at id st (iterrows body (rows filtered_df) st).
Proof.
  intros Hbody.
  apply (iterrows_invariant_in (untouched_at id st)); [| apply untouched_at_refl].
  intros r s s' Hr Hs H. eapply untouched_at_trans; [exact Hs |]. by eapply Hbody.
Qed.

(** X2. A bulk button of the view changes nothing for a candidate that
    is not in the view: its membership in the two sets, its contact
    status and its rating stay, and so do all remarks, all interviews and
    the dataframe. *)
Theorem bulk_action_leaves_others (a : action) (filtered_df : DataFrame)
    (id : Z) (st : session_state) :
  view_of a = Some filtered_df ->
  id ∉ frame_ids filtered_df ->
  untouched_at id st (handle a st)
  /\ get_status (handle a st) id = get_status st id
  /\ get_contact_status (handle a st) id = get_contact_status st id.
Proof.
  intros Hview Hout.
  assert (Hne : forall r n, r ∈ rows filtered_df -> row_id r = Ok n -> id <> n).
  { intros r n Hr Hn ->. apply Hout. by eapply row_id_in_frame_ids. }
  assert (H : untouched_at id st (handle a st)).
  { destruct a; cbn in Hview; try discriminate; injection Hview as ->; cbn [handle];
      apply iterrows_untouched; intros r s s' Hr H; invert_ok;
      first [ apply untouched_at_refl
            | apply shortlist_untouched; by eapply Hne
            | apply reject_untouched; by eapply Hne
            | apply reset_disposition_untouched; by eapply Hne
            | apply set_contact_untouched; by eapply Hne
            | apply set_rating_untouched; by eapply Hne ]. }
  split; [exact H |].
  destruct H as (H1 & H2 & H3 & _).
  split.
  - unfold get_status. repeat case_decide; tauto.
  - unfold get_contact_status. by rewrite H3.
Qed.

Lemma bulk_action_leaves_others_witness :
  untouched_at 7 sample_state (handle (RejectAllFiltered sample_df) sample_state)
  /\ get_status (handle (RejectAllFiltered sample_df) sample_state) 7
     = get_status sample_state 7
  /\ get_contact_status (handle (RejectAllFiltered sample_df) sample_state) 7
     = get_contact_status sample_state 7.
Proof.
  apply (bulk_action_leaves_others (RejectAllFiltered sample_df) sample_df 7 sample_state).
  - reflexivity.
  - vm_compute. intros H. repeat (apply elem_of_cons in H as [H | H]; [discriminate |]).
    by apply elem_of_nil in H.
Defined.

Lemma row_getitem_loc (r : gmap string cell) (c : string) :
  is_Some (r !! c) -> row_getitem r c = Ok (loc r c).
Proof. intros [v Hv]. unfold row_getitem, loc. by rewrite Hv. Qed.

Lemma rows_have_spec (labels : list string) (frame : DataFrame)
    (r : gmap string cell) (c : string) :
  rows_have labels frame = true -> r ∈ rows frame -> c ∈ labels -> is_Some (r !! c).
Proof.
  unfold rows_have. rewrite forallb_forall. intros H Hr Hc.
  apply list_elem_of_In, H in Hr. rewrite forallb_forall in Hr.
  apply list_elem_of_In, Hr in Hc. by apply bool_decide_eq_true_1 in Hc.
Qed.

Lemma has_ids_spec (frame : DataFrame) (r : gmap string cell) :
  has_ids frame = true -> r ∈ rows frame -> exists n, row_id r = Ok n.
Proof.
  unfold has_ids. rewrite forallb_forall. intros H Hr.
  apply list_elem_of_In, H in Hr. destruct (row_id r); [eauto | discriminate].
Qed.

Lemma row_id_loc (r : gmap string cell) (n : Z) :
  row_id r = Ok n -> loc r "ID" = Int n.
Proof. intros H%row_id_Ok. unfold loc. by rewrite H. Qed.

(** The loop of an auto-shortlist button when the criterion evaluates on
    every row of the view. *)
Lemma auto_shortlist_rows criterion (test : gmap string cell -> bool)
    (R : gmap Z Z) (rs : list (gmap string cell)) :
  (forall r, r ∈ rs -> exists n, row_id r = Ok n) ->
  (forall r s, r ∈ rs -> ratings s = R -> criterion r s = Ok (test r)) ->
  forall st, ratings st = R ->
    let ids := frame_ids {| columns := []; rows := List.filter test rs |} in
    let st' := iterrows (fun row st =>
                           b ← criterion row st;
                           if b : bool then id ← row_id row; mret (shortlist id st)
                           else mret st) rs st in
    shortlisted st' = list_to_set ids ∪ shortlisted st
    /\ rejected st' = rejected st ∖ list_to_set ids
    /\ ratings st' = ratings st.
Proof.
  induction rs as [| r rs IH]; intros Hids Hcrit st HR; cbn.
  - repeat split; set_solver.
  - rewrite (Hcrit r st) by (by rewrite ?elem_of_cons; auto). cbn.
    assert (Hids' : forall r0, r0 ∈ rs -> exists n, row_id r0 = Ok n)
      by (intros; apply Hids; apply elem_of_cons; auto).
    assert (Hcrit' : forall r0 s, r0 ∈ rs -> ratings s = R -> criterion r0 s = Ok (test r0))
      by (intros; apply Hcrit; [apply elem_of_cons; auto | done]).
    destruct (test r) eqn:Et.
    + destruct (Hids r) as [n Hn]; [apply elem_of_cons; auto |].
      rewrite Hn. cbn.
      destruct (IH Hids' Hcrit' (shortlist n st) HR) as (-> & -> & ->).
      unfold frame_ids; cbn. rewrite Hn. cbn. repeat split; set_solver.
    + apply (IH Hids' Hcrit' st HR).
Qed.

(** X3. When every row of the view has an id and a cell under the
    labels a criterion reads, each auto-shortlist button shortlists
    exactly the rows of the view that meet its criterion, takes them out
    of the rejected set, and neither shortlists nor rejects any other
    candidate. *)
Theorem auto_shortlist_effect (filtered_df : DataFrame) (st : session_state) :
  has_ids filtered_df = true ->
  rows_have [col_laptop; col_smartphone; col_hours; col_qualification] filtered_df = true ->
  let effect (handler : session_state) (test : gmap string cell -> bool) :=
    shortlisted handler
      = list_to_set (frame_ids (where_rows test filtered_df)) ∪ shortlisted st
    /\ rejected handler
      = rejected st ∖ list_to_set (frame_ids (where_rows test filtered_df)) in
  effect (auto_shortlist has_laptop_and_smartphone filtered_df st) meets_laptop_smartphone
  /\ effect (auto_shortlist full_time_available filtered_df st) meets_full_time
  /\ effect (auto_shortlist graduate_or_engineer filtered_df st) meets_graduate_engineer
  /\ effect (auto_shortlist rated_four_plus filtered_df st) (meets_rated st).
Proof.
  intros Hids Hhave effect. subst effect. cbv beta.
  assert (Hid : forall r, r ∈ rows filtered_df -> exists n, row_id r = Ok n)
    by (intros; by eapply has_ids_spec).
  assert (Hget : forall r c, r ∈ rows filtered_df ->
            c ∈ [col_laptop; col_smartphone; col_hours; col_qualification] ->
            row_getitem r c = Ok (loc r c)).
  { intros r c Hr Hc. apply row_getitem_loc. by eapply rows_have_spec. }
  assert (Heff : forall criterion test,
            (forall r s, r ∈ rows filtered_df -> ratings s = ratings st ->
                         criterion r s = Ok (test r)) ->
            shortlisted (auto_shortlist criterion filtered_df st)
              = list_to_set (frame_ids (where_rows test filtered_df)) ∪ shortlisted st
            /\ rejected (auto_shortlist criterion filtered_df st)
              = rejected st ∖ list_to_set (frame_ids (where_rows test filtered_df))).
  { intros criterion test Hcrit.
    destruct (auto_shortlist_rows criterion test (ratings st) (rows filtered_df)
                Hid Hcrit st eq_refl) as (H1 & H2 & _).
    split; [exact H1 | exact H2]. }
  split; [| split; [| split]]; apply Heff; intros r s Hr Hs.
  - unfold has_laptop_and_smartphone, meets_laptop_smartphone.
    rewrite (Hget r col_laptop) by (done || set_solver). cbn.
    destruct (cell_eq_str "Yes" (loc r col_laptop)); [| done].
    rewrite (Hget r col_smartphone) by (done || set_solver). done.
  - unfold full_time_available, meets_full_time.
    rewrite (Hget r col_hours) by (done || set_solver). done.
  - unfold graduate_or_engineer, meets_graduate_engineer.
    rewrite (Hget r col_qualification) by (done || set_solver). done.
  - unfold rated_four_plus, meets_rated.
    destruct (Hid r Hr) as [n Hn]. rewrite Hn, (row_id_loc r n Hn), Hs. done.
Qed.

Lemma auto_shortlist_effect_witness :
  let effect (handler : session_state) (test : gmap string cell -> bool) :=
    shortlisted handler
      = list_to_set (frame_ids (where_rows test sample_df)) ∪ shortlisted sample_state
    /\ rejected handler
      = rejected sample_state ∖ list_to_set (frame_ids (where_rows test sample_df)) in
  effect (auto_shortlist has_laptop_and_smartphone sample_df sample_state)
         meets_laptop_smartphone
  /\ effect (auto_shortlist full_time_available sample_df sample_state) meets_full_time
  /\ effect (auto_shortlist graduate_or_engineer sample_df sample_state)
            meets_graduate_engineer
  /\ effect (auto_shortlist rated_four_plus sample_df sample_state)
            (meets_rated sample_state).
Proof.
  apply (auto_shortlist_effect sample_df sample_state); vm_compute; reflexivity.
Defined.

Example auto_shortlist_sample :
  frame_ids (where_rows meets_laptop_smartphone sample_df) = [0]
  /\ frame_ids (where_rows meets_full_time sample_df) = [0; 2]
  /\ frame_ids (where_rows meets_graduate_engineer sample_df) = [0; 2]
  /\ elements (shortlisted (auto_shortlist has_laptop_and_smartphone sample_df
                              (reject 0 (reject 1 sample_state)))) = [0]
  /\ elements (rejected (auto_shortlist has_laptop_and_smartphone sample_df
                           (reject 0 (reject 1 sample_state)))) = [1].
Proof. repeat split; vm_compute; reflexivity. Qed.

(** X4. Reset All Filtered to Pending takes every id of the view out of
    both sets, so each of them reads Pending afterwards. *)
Theorem reset_filtered_to_pending_effect (filtered_df : DataFrame) (st : session_state) :
  has_ids filtered_df = true ->
  shortlisted (reset_filtered_to_pending filtered_df st)
    = shortlisted st ∖ list_to_set (frame_ids filtered_df)
  /\ rejected (reset_filtered_to_pending filtered_df st)
    = rejected st ∖ list_to_set (frame_ids filtered_df)
  /\ forall id, id ∈ frame_ids filtered_df ->
       get_status (reset_filtered_to_pending filtered_df st) id = "⏳ Pending".
Proof.
  intros Hids.
  assert (H : shortlisted (reset_filtered_to_pending filtered_df st)
              = shortlisted st ∖ list_to_set (frame_ids filtered_df)
              /\ rejected (reset_filtered_to_pending filtered_df st)
              = rejected st ∖ list_to_set (frame_ids filtered_df)).
  { revert Hids. unfold has_ids, frame_ids, reset_filtered_to_pending.
    destruct filtered_df as [cols rs]; cbn [rows]. revert st.
    induction rs as [| r rs IH]; intros st Hids; cbn.
    - split; set_solver.
    - cbn in Hids. apply andb_prop in Hids as [Hr Hrs].
      destruct (row_id r) as [id | e]; [| discriminate]. cbn.
      destruct (IH (reset_disposition id st) Hrs) as [-> ->]. cbn. split; set_solver. }
  destruct H as [Hs Hr]. split; [exact Hs |]. split; [exact Hr |].
  intros id Hid. unfold get_status. rewrite Hs, Hr.
  rewrite decide_False by set_solver. rewrite decide_False by set_solver. done.
Qed.

Lemma reset_filtered_to_pending_effect_witness :
  shortlisted (reset_filtered_to_pending sample_df (shortlist 1 sample_state))
    = shortlisted (shortlist 1 sample_state) ∖ list_to_set (frame_ids sample_df)
  /\ rejected (reset_filtered_to_pending sample_df (shortlist 1 sample_state))
    = rejected (shortlist 1 sample_state) ∖ list_to_set (frame_ids sample_df)
  /\ forall id, id ∈ frame_ids sample_df ->
       get_status (reset_filtered_to_pending sample_df (shortlist 1 sample_state)) id
       = "⏳ Pending".
Proof.
  apply (reset_filtered_to_pending_effect sample_df (shortlist 1 sample_state)).
  vm_compute. reflexivity.
Defined.

(** ** Values kept in the maps *)

Lemma rating_options_range (choice : nat) (rating : Z) :
  rating_options !! choice = Some rating -> 0 <= rating <= 5.
Proof.
  unfold rating_options.
  do 6 (destruct choice as [| choice]; [intros [= <-]; lia |]).
  discriminate.
Qed.

Lemma rating_map_range (qual : cell) (rating : Z) :
  rating_map_get qual = Some rating -> 2 <= rating <= 5.
Proof.
  destruct qual as [| s |]; try discriminate. unfold rating_map_get, rating_map. cbn.
  repeat (case_bool_decide; [intros [= <-]; lia |]). discriminate.
Qed.

Lemma ratings_in_range_insert (id rating : Z) (st : session_state) :
  0 <= rating <= 5 -> ratings_in_range st ->
  ratings_in_range (set_ratings (<[id := rating]> (ratings st)) st).
Proof. intros Hr Hst. unfold ratings_in_range; cbn. by apply map_Forall_insert_2. Qed.

Lemma ratings_in_range_same (st st' : session_state) :
  ratings st' = ratings st -> ratings_in_range st -> ratings_in_range st'.
Proof. unfold ratings_in_range. by intros ->. Qed.

Lemma handle_ratings_in_range (a : action) (st : session_state) :
  ratings_in_range st -> ratings_in_range (handle a st).
Proof.
  intros Hst.
  destruct a; cbn [handle]; try exact Hst;
    try (revert Hst; apply iterrows_invariant; intros r s s' Hs H; invert_ok;
         first [ exact Hs | by eapply ratings_in_range_same; [| exact Hs] ]).
  - unfold contact_select. destruct (contact_options !! choice); [| exact Hst].
    case_decide; exact Hst.
  - unfold rating_select. destruct (rating_options !! choice) as [rating |] eqn:E;
      [| exact Hst].
    case_decide; [exact Hst |].
    apply ratings_in_range_insert; [by eapply rating_options_range | exact Hst].
  - unfold schedule_click. destruct (interview_scheduled st !! row_id0); exact Hst.
  - unfold cancel_click. destruct (interview_scheduled st !! row_id0); exact Hst.
  - unfold save_remark_click. destruct (str_truthy _); exact Hst.
  - revert Hst. apply iterrows_invariant. intros r s s' Hs H.
    apply bind_Ok in H as (qual & _ & H).
    destruct (rating_map_get qual) as [rating |] eqn:E.
    + apply bind_Ok in H as (id & _ & [= <-]).
      apply ratings_in_range_insert; [| exact Hs].
      apply rating_map_range in E. lia.
    + by injection H as <-.
  - unfold ratings_in_range; cbn. apply map_Forall_empty.
Qed.

(** X5. In every reachable state every stored rating is between 0 and
    5: the rating select box offers 0 to 5 and Auto-Rate writes 2 to 5. *)
Theorem reachable_ratings_in_range (st : session_state) (id rating : Z) :
  reachable st -> ratings st !! id = Some rating -> 0 <= rating <= 5.
Proof.
  intros Hreach. revert id rating.
  change (ratings_in_range st).
  induction Hreach as [| a st _ IH].
  - apply map_Forall_empty.
  - unfold run. destruct (df st) eqn:E.
    + by apply handle_ratings_in_range.
    + destruct a; try exact IH. unfold upload_file. rewrite E.
      destruct (load_data parsed); exact IH.
Qed.

Lemma reachable_ratings_in_range_witness :
  ratings (run (AutoRateByQualification sample_df) sample_state) !! 0 = Some 4
  /\ 0 <= 4 <= 5.
Proof.
  split; [vm_compute; reflexivity |].
  apply (reachable_ratings_in_range
           (run (AutoRateByQualification sample_df) sample_state) 0 4).
  - apply reachable_run, sample_state_reachable.
  - vm_compute. reflexivity.
Defined.

Lemma statuses_known_insert (id : Z) (status : string) (st : session_state) :
  status ∈ contact_options -> statuses_known st ->
  statuses_known (set_contact_status (<[id := status]> (contact_status st)) st).
Proof. intros Hs Hst. unfold statuses_known; cbn. by apply map_Forall_insert_2. Qed.

Lemma statuses_known_same (st st' : session_state) :
  contact_status st' = contact_status st -> statuses_known st -> statuses_known st'.
Proof. unfold statuses_known. by intros ->. Qed.

Lemma email_sent_known : "Email Sent" ∈ contact_options.
Proof. unfold contact_options. set_solver. Qed.

Lemma no_answer_known : "Called - No Answer" ∈ contact_options.
Proof. unfold contact_options. set_solver. Qed.

Lemma handle_statuses_known (a : action) (st : session_state) :
  statuses_known st -> statuses_known (handle a st).
Proof.
  intros Hst.
  destruct a; cbn [handle]; try exact Hst;
    try (revert Hst; apply iterrows_invariant; intros r s s' Hs H; invert_ok;
         first [ exact Hs
               | apply statuses_known_insert; [apply no_answer_known | exact Hs]
               | by eapply statuses_known_same; [| exact Hs] ]).
  - unfold contact_select. destruct (contact_options !! choice) as [status |] eqn:E;
      [| exact Hst].
    case_decide; [exact Hst |].
    apply statuses_known_insert; [by eapply list_elem_of_lookup_2 | exact Hst].
  - unfold rating_select. destruct (rating_options !! choice); [| exact Hst].
    case_decide; exact Hst.
  - unfold schedule_click. destruct (interview_scheduled st !! row_id0); exact Hst.
  - unfold cancel_click. destruct (interview_scheduled st !! row_id0); exact Hst.
  - unfold save_remark_click. destruct (str_truthy _); exact Hst.
  - unfold statuses_known, mark_shortlisted_email_sent; cbn.
    apply (set_fold_ind_L
             (fun m _ => map_Forall (fun _ status => status ∈ contact_options) m));
      [exact Hst |].
    intros id X m _ Hm. apply map_Forall_insert_2; [apply email_sent_known | exact Hm].
  - unfold statuses_known; cbn. apply map_Forall_empty.
Qed.

Lemma reachable_statuses_known (st : session_state) :
  reachable st -> statuses_known st.
Proof.
  induction 1 as [| a st _ IH].
  - apply map_Forall_empty.
  - unfold run. destruct (df st) eqn:E.
    + by apply handle_statuses_known.
    + destruct a; try exact IH. unfold upload_file. rewrite E.
      destruct (load_data parsed); exact IH.
Qed.

(** X6. In every reachable state the contact status of every candidate,
    stored or defaulted, is one of the six options of the select box. *)
Theorem reachable_contact_status_known (st : session_state) (id : Z) :
  reachable st -> get_contact_status st id ∈ contact_options.
Proof.
  intros Hreach. apply reachable_statuses_known in Hreach.
  unfold get_contact_status.
  destruct (contact_status st !! id) as [status |] eqn:E; cbn.
  - by eapply (map_Forall_lookup_1 _ _ _ _ Hreach).
  - unfold contact_options. set_solver.
Qed.

Lemma reachable_contact_status_known_witness :
  get_contact_status (run MarkShortlistedEmailSent (run (ShortlistClick 2) sample_state)) 2
    ∈ contact_options.
Proof.
  apply (reachable_contact_status_known
           (run MarkShortlistedEmailSent (run (ShortlistClick 2) sample_state)) 2).
  do 2 apply reachable_run. exact sample_state_reachable.
Defined.

(** ** Remarks are only appended *)

Lemma handle_remarks_prefix (a : action) (st : session_state) (id : Z) :
  a <> UploadNewFile ->
  get_remarks st id `prefix_of` get_remarks (handle a st) id.
Proof.
  intros Ha.
  assert (Hsame : forall st', remarks st' = remarks st ->
                              get_remarks st id `prefix_of` get_remarks st' id).
  { intros st' E. unfold get_remarks. by rewrite E. }
  destruct a; cbn [handle]; try done; try (by apply Hsame);
    try (apply (iterrows_invariant
                  (fun s => get_remarks st id `prefix_of` get_remarks s id));
         [| done];
         intros r s s' Hs H; invert_ok; exact Hs).
  - unfold contact_select. destruct (contact_options !! choice); [| done].
    case_decide; by apply Hsame.
  - unfold rating_select. destruct (rating_options !! choice); [| done].
    case_decide; by apply Hsame.
  - unfold schedule_click. destruct (interview_scheduled st !! row_id0); by apply Hsame.
  - unfold cancel_click. destruct (interview_scheduled st !! row_id0); by apply Hsame.
  - unfold save_remark_click. destruct (str_truthy _); cbn [fst]; [| done].
    destruct (decide (id = row_id0)) as [-> | Hne].
    + rewrite get_remarks_add_remark. by apply prefix_app_r.
    + unfold get_remarks at 2. cbn. by rewrite lookup_insert_ne.
Qed.

(** X7. No event other than Upload New File removes, changes or
    reorders a remark: the remark log of every candidate before the event
    is a prefix of its log after it. *)
Theorem remarks_append_only (a : action) (st : session_state) (id : Z) :
  a <> UploadNewFile ->
  get_remarks st id `prefix_of` get_remarks (run a st) id.
Proof.
  intros Ha. unfold run. destruct (df st) eqn:E.
  - by apply handle_remarks_prefix.
  - destruct a; try done. unfold upload_file. rewrite E.
    by destruct (load_data parsed).
Qed.

Lemma remarks_append_only_witness :
  get_remarks (run (SaveRemarkClick "2024-03-14 10:00:00" 0 "first") sample_state) 0
    `prefix_of`
  get_remarks (run (SaveRemarkClick "2024-03-14 10:05:00" 0 "second")
                 (run (SaveRemarkClick "2024-03-14 10:00:00" 0 "first") sample_state)) 0.
Proof.
  apply (remarks_append_only (SaveRemarkClick "2024-03-14 10:05:00" 0 "second")
           (run (SaveRemarkClick "2024-03-14 10:00:00" 0 "first") sample_state) 0).
  discriminate.
Defined.

(** ** Interviews *)

(** X8. Scheduling an interview for a candidate that has none stores
    the date, and cancelling it afterwards gives back the state before;
    for a candidate that has one, Schedule changes nothing (the date is
    not overwritten) and Cancel removes the entry. *)
Theorem schedule_cancel_round_trip (id : Z) (date old : string) (st : session_state) :
  (interview_scheduled st !! id = None ->
     interview_scheduled (schedule_click id date st) !! id = Some date
     /\ cancel_click id (schedule_click id date st) = st)
  /\ (interview_scheduled st !! id = Some old ->
        schedule_click id date st = st
        /\ interview_scheduled (cancel_click id st) !! id = None
        /\ forall id', id' <> id ->
             interview_scheduled (cancel_click id st) !! id'
             = interview_scheduled st !! id').
Proof.
  split; intros H.
  - unfold schedule_click. rewrite H. cbn. rewrite lookup_insert_eq. split; [done |].
    unfold cancel_click. cbn. rewrite lookup_insert_eq.
    apply state_eq; cbn; try done. by apply delete_insert_id.
  - unfold schedule_click, cancel_click. rewrite H. cbn. split; [done |].
    split; [apply lookup_delete_eq |]. intros id' Hne. by apply lookup_delete_ne.
Qed.

Lemma schedule_cancel_round_trip_witness :
  (interview_scheduled (schedule_click 1 "2024-04-02" sample_state) !! 1
     = Some "2024-04-02"
   /\ cancel_click 1 (schedule_click 1 "2024-04-02" sample_state) = sample_state)
  /\ schedule_click 1 "2024-05-09" (schedule_click 1 "2024-04-02" sample_state)
     = schedule_click 1 "2024-04-02" sample_state.
Proof.
  split.
  - apply (schedule_cancel_round_trip 1 "2024-04-02" "" sample_state). reflexivity.
  - apply (schedule_cancel_round_trip 1 "2024-05-09" "2024-04-02"
             (schedule_click 1 "2024-04-02" sample_state)).
    reflexivity.
Defined.

(** ** Mark All Shortlisted as Email Sent *)

(** X9. Mark All Shortlisted as Email Sent sets the contact status of
    exactly the shortlisted candidates to Email Sent, whatever it was,
    keeps the contact status of every other candidate and changes
    nothing else in the session. *)
Theorem mark_shortlisted_email_sent_effect (st : session_state) (id : Z) :
  contact_status (mark_shortlisted_email_sent st) !! id
    = (if decide (id ∈ shortlisted st) then Some "Email Sent"
       else contact_status st !! id)
  /\ shortlisted (mark_shortlisted_email_sent st) = shortlisted st
  /\ rejected (mark_shortlisted_email_sent st) = rejected st
  /\ ratings (mark_shortlisted_email_sent st) = ratings st
  /\ interview_scheduled (mark_shortlisted_email_sent st) = interview_scheduled st
  /\ remarks (mark_shortlisted_email_sent st) = remarks st.
Proof.
  split; [| by repeat split].
  unfold mark_shortlisted_email_sent; cbn.
  set (P := fun (m : gmap Z string) (X : gset Z) =>
              m !! id = if decide (id ∈ X) then Some "Email Sent"
                        else contact_status st !! id).
  apply (set_fold_ind_L P); subst P; cbv beta.
  - rewrite decide_False; [done | set_solver].
  - intros x X m Hx IH. destruct (decide (id = x)) as [-> | Hne].
    + rewrite lookup_insert_eq. rewrite decide_True; [done | set_solver].
    + rewrite lookup_insert_ne by done. rewrite IH.
      destruct (decide (id ∈ X)).
      * rewrite decide_True; [done | set_solver].
      * rewrite decide_False; [done | set_solver].
Qed.


(** * Further properties of loading and filtering *)

Lemma frame_ids_zip_with_insert (rs : list (gmap string cell)) (ids : list Z) :
  length ids = length rs ->
  frame_ids {| columns := [];
               rows := zip_with (fun r v => <["ID" := v]> r) rs (map Int ids) |}
  = ids.
Proof.
  unfold frame_ids; cbn. revert ids.
  induction rs as [| r rs IH]; intros [| n ids] Hlen; try discriminate; [done |].
  cbn. unfold row_id at 1. rewrite lookup_insert_eq. cbn. f_equal.
  apply IH. by injection Hlen.
Qed.

Lemma has_ids_zip_with_insert (rs : list (gmap string cell)) (ids : list Z) :
  has_ids {| columns := [];
             rows := zip_with (fun r v => <["ID" := v]> r) rs (map Int ids) |} = true.
Proof.
  unfold has_ids; cbn. revert ids.
  induction rs as [| r rs IH]; intros [| n ids]; try done.
  cbn. unfold row_id at 1. rewrite lookup_insert_eq. cbn. apply IH.
Qed.

(** X10. A parsed table is always loaded: its rows are numbered 0, 1,
    2, ... in file order in the [ID] column (an [ID] column of the file
    is overwritten), the ids are distinct, and every other column keeps
    its cells.  A file that cannot be parsed loads nothing and the upload
    leaves the session as it was. *)
Theorem load_data_numbers_rows (raw : DataFrame) (e : exn) (st : session_state) :
  (exists frame,
     load_data (Ok raw) = Some frame
     /\ frame_ids frame = map Z.of_nat (seq 0 (length (rows raw)))
     /\ has_ids frame = true
     /\ NoDup (frame_ids frame)
     /\ length (rows frame) = length (rows raw)
     /\ "ID" ∈ columns frame
     /\ (forall c, c <> "ID" -> getitem frame c = getitem raw c))
  /\ load_data (Raise e) = None
  /\ upload_file (Raise e) st = st.
Proof.
  split; [| split; [done |]].
  - eexists. split; [reflexivity |].
    set (n := length (rows raw)).
    assert (Hids : frame_ids (setitem raw "ID" (range_cells n))
                   = map Z.of_nat (seq 0 n)).
    { unfold range_cells. rewrite <- (map_map Z.of_nat Int).
      apply (frame_ids_zip_with_insert (rows raw) (map Z.of_nat (seq 0 n))).
      by rewrite length_map, length_seq. }
    assert (Hlen : length (rows (setitem raw "ID" (range_cells n))) = n).
    { apply setitem_length, range_cells_length. }
    split; [exact Hids |]. split.
    { unfold range_cells. rewrite <- (map_map Z.of_nat Int).
      apply (has_ids_zip_with_insert (rows raw) (map Z.of_nat (seq 0 n))). }
    split.
    { rewrite Hids. apply (NoDup_fmap_2 Z.of_nat), NoDup_seq. }
    split; [exact Hlen |]. split; [apply setitem_has_column |].
    intros c Hne. apply getitem_setitem_ne; [done | apply range_cells_length].
  - unfold upload_file. cbn. by destruct (df st).
Qed.

(** ** Ages *)

(** X11. When the birth date is read, the computed age is negative
    exactly when the birth date is after today: a date of birth in the
    future is not refused but gives a negative age. *)
Theorem calculate_age_sign
    (to_datetime : cell -> option date) (today birth_date : date)
    (age_str : cell) (age : Z) :
  to_datetime age_str = Some birth_date ->
  calculate_age to_datetime today age_str = Some age ->
  (0 <=? age) = date_le birth_date today.
Proof.
  intros Hparse. unfold calculate_age.
  destruct age_str as [| [| a s] | n]; try discriminate;
    rewrite Hparse; intros [= <-]; unfold month_day_lt, date_le;
    destruct birth_date as [yb mb db], today as [yt mt dt]; cbn;
    destruct (mt <? mb) eqn:E1, (mt =? mb) eqn:E2, (dt <? db) eqn:E3,
             (yb <? yt) eqn:E4, (yb =? yt) eqn:E5, (mb <? mt) eqn:E6,
             (mb =? mt) eqn:E7, (db <=? dt) eqn:E8; cbn; lia.
Qed.

Lemma calculate_age_sign_witness :
  calculate_age sample_to_datetime sample_today (Str "02-01-2030") = Some (-6)
  /\ (0 <=? -6) = date_le {| year := 2030; month := 1; day := 2 |} sample_today.
Proof.
  split; [reflexivity |].
  apply (calculate_age_sign sample_to_datetime sample_today
           {| year := 2030; month := 1; day := 2 |} (Str "02-01-2030") (-6));
    reflexivity.
Defined.


(** ** The filter as one test per row *)

Lemma filter_filter_and {A : Type} (p q : A -> bool) (l : list A) :
  List.filter q (List.filter p l) = List.filter (fun a => p a && q a) l.
Proof.
  induction l as [| a l IH]; [done |]. cbn.
  destruct (p a); cbn; [destruct (q a) |]; by rewrite IH.
Qed.

Lemma filter_map_comm {A B : Type} (f : A -> B) (p : B -> bool) (l : list A) :
  List.filter p (map f l) = map f (List.filter (fun a => p (f a)) l).
Proof.
  induction l as [| a l IH]; [done |]. cbn. destruct (p (f a)); cbn; by rewrite IH.
Qed.

Lemma filter_all {A : Type} (p : A -> bool) (l : list A) :
  (forall a, p a = true) -> List.filter p l = l.
Proof.
  intros H. induction l as [| a l IH]; [done |]. cbn. by rewrite H, IH.
Qed.

Lemma where_rows_ext (p q : gmap string cell -> bool) (frame : DataFrame) :
  (forall r, p r = q r) -> where_rows p frame = where_rows q frame.
Proof. intros H. unfold where_rows. f_equal. by apply filter_ext. Qed.

Lemma where_rows_all (p : gmap string cell -> bool) (frame : DataFrame) :
  (forall r, p r = true) -> where_rows p frame = frame.
Proof.
  intros H. destruct frame as [cols rs]. unfold where_rows; cbn. f_equal.
  by apply filter_all.
Qed.

Lemma where_rows_where_rows (p q : gmap string cell -> bool) (frame : DataFrame) :
  where_rows q (where_rows p frame) = where_rows (fun r => p r && q r) frame.
Proof. unfold where_rows; cbn. f_equal. apply filter_filter_and. Qed.

Lemma filter_on_where (frame : DataFrame) (c : string) (test : cell -> bool) :
  c ∈ columns frame ->
  filter_on frame c test = Ok (where_rows (fun r => test (loc r c)) frame).
Proof. apply filter_on_Ok. Qed.

Lemma categorical_where (frame : DataFrame) (c value : string) :
  c ∈ columns frame ->
  categorical frame c value = Ok (where_rows (cat_test value c) frame).
Proof.
  intros Hc. unfold categorical, cat_test. case_decide as Hv.
  - f_equal. symmetry. apply where_rows_all. intros r.
    by rewrite bool_decide_eq_true_2.
  - rewrite filter_on_where by exact Hc. f_equal. apply where_rows_ext. intros r.
    by rewrite bool_decide_eq_false_2.
Qed.

Lemma contact_filter_where st (frame : DataFrame) (filters : Filters) :
  "ID" ∈ columns frame ->
  contact_filter st frame filters
  = Ok (where_rows (keys_test (contact_status st) (f_contact_status filters)
                      "Contacted" "Not Contacted") frame).
Proof.
  intros Hc. unfold contact_filter, keys_test.
  destruct (decide (f_contact_status filters = "All")) as [-> | H1].
  - f_equal. symmetry. by apply where_rows_all.
  - repeat case_decide; rewrite ?filter_on_where by exact Hc; try done.
    f_equal. symmetry. by apply where_rows_all.
Qed.

Lemma interview_filter_where st (frame : DataFrame) (filters : Filters) :
  "ID" ∈ columns frame ->
  interview_filter st frame filters
  = Ok (where_rows (keys_test (interview_scheduled st) (f_interview_status filters)
                      "Scheduled" "Not Scheduled") frame).
Proof.
  intros Hc. unfold interview_filter, keys_test.
  destruct (decide (f_interview_status filters = "All")) as [-> | H1].
  - f_equal. symmetry. by apply where_rows_all.
  - repeat case_decide; rewrite ?filter_on_where by exact Hc; try done.
    f_equal. symmetry. by apply where_rows_all.
Qed.

Lemma view_mode_filter_where st (frame : DataFrame) (filters : Filters) :
  "ID" ∈ columns frame ->
  view_mode_filter st frame filters
  = Ok (where_rows (view_test st (f_view_mode filters)) frame).
Proof.
  intros Hc. unfold view_mode_filter, view_test.
  repeat case_decide; rewrite ?filter_on_where by exact Hc; try done.
  f_equal. symmetry. by apply where_rows_all.
Qed.

Lemma existsb_map {A B : Type} (p : B -> bool) (g : A -> B) (l : list A) :
  existsb p (map g l) = existsb (fun a => p (g a)) l.
Proof. induction l as [| a l IH]; [done |]. cbn. by rewrite IH. Qed.

Lemma lookup_map {A B : Type} (h : A -> B) (l : list A) (i : nat) :
  map h l !! i = h <$> l !! i.
Proof.
  revert i. induction l as [| a l IH]; intros [| i]; try done. cbn. apply IH.
Qed.

Lemma map_seq_lookup {A B : Type} (F : option A -> B) (l : list A) :
  map (fun i => F (l !! i)) (seq 0 (length l)) = map (fun a => F (Some a)) l.
Proof.
  induction l as [| a l IH]; [done |]. cbn [length seq map]. f_equal.
  rewrite <- seq_shift, map_map. exact IH.
Qed.

Lemma any_axis1_columns {A : Type} (h : string -> A -> bool) (cols : list string)
    (l : list A) :
  any_axis1 (length l) (map (fun c => map (h c) l) cols)
  = map (fun a => existsb (fun c => h c a) cols) l.
Proof.
  unfold any_axis1.
  transitivity (map (fun i => existsb (fun c => default false (h c <$> l !! i)) cols)
                    (seq 0 (length l))).
  - apply map_ext. intros i. rewrite existsb_map.
    induction cols as [| c cols IH]; [done |]. cbn [existsb].
    by rewrite lookup_map, IH.
  - exact (map_seq_lookup
             (fun o => existsb (fun c => default false (h c <$> o)) cols) l).
Qed.

Section Search.

Variable str_contains : string -> list string -> result (list bool).

Lemma apply_columns_matches (matches : string -> bool) (frame : DataFrame)
    (term : string) (cols : list string) :
  (forall texts, str_contains term texts = Ok (map matches texts)) ->
  apply_columns (contains_column str_contains frame term) cols
  = Ok (map (fun c => map (fun r => matches (astype_str (loc r c))) (rows frame)) cols).
Proof.
  intros Hm. induction cols as [| c cols IH]; [done |].
  cbn [apply_columns map]. rewrite IH. unfold contains_column.
  rewrite Hm, map_map. reflexivity.
Qed.

(** When the library answers with the matches of each text, the search
    block keeps the rows in which some column matches. *)
Lemma search_filter_matches (matches : string -> bool) (frame : DataFrame)
    (filters : Filters) :
  (forall texts, str_contains (f_search filters) texts = Ok (map matches texts)) ->
  f_search filters <> "" ->
  search_filter str_contains frame filters
  = Ok (where_rows (search_row matches frame) frame).
Proof.
  intros Hm Hne. unfold search_filter.
  destruct (f_search filters) as [| a term] eqn:E; [done |]. cbn [str_truthy].
  unfold search_mask. rewrite (apply_columns_matches matches) by exact Hm.
  cbn. f_equal. unfold getitem_mask, where_rows. f_equal.
  rewrite (any_axis1_columns (fun c r => matches (astype_str (loc r c)))).
  apply select_map.
Qed.

Lemma apply_columns_Raise (f : string -> result (list bool)) (cols : list string)
    (e : exn) :
  apply_columns f cols = Raise e -> exists c, c ∈ cols /\ f c = Raise e.
Proof.
  induction cols as [| c cols IH]; [done |]. cbn [apply_columns].
  destruct (f c) as [series | e0] eqn:E; cbn.
  - destruct (apply_columns f cols) as [rest | e1]; cbn; [done |].
    intros [= ->]. destruct IH as (c' & Hin & Hc'); [done |].
    exists c'. split; [by apply elem_of_cons; right | exact Hc'].
  - intros [= ->]. exists c. split; [by apply elem_of_cons; left | exact E].
Qed.

(** An exception of the search block is an exception of [str.contains]
    on one of the columns. *)
Lemma search_filter_Raise (frame : DataFrame) (filters : Filters) (e : exn) :
  search_filter str_contains frame filters = Raise e ->
  f_search filters <> ""
  /\ exists c, c ∈ columns frame
              /\ str_contains (f_search filters)
                   (map (fun r => astype_str (loc r c)) (rows frame)) = Raise e.
Proof.
  unfold search_filter. destruct (f_search filters) as [| a term]; [done |].
  cbn [str_truthy]. intros H. split; [done |].
  unfold search_mask in H.
  destruct (apply_columns _ (columns frame)) as [series | e0] eqn:E; [done |].
  cbn in H. injection H as ->. by apply apply_columns_Raise in E.
Qed.

End Search.

Lemma age_bound_where (frame : DataFrame) (bound : option Z) (cmp : cell -> Z -> bool) :
  "Age" ∈ columns frame ->
  age_bound frame bound cmp = Ok (where_rows (bound_cell_test bound cmp) frame).
Proof.
  intros Hc. unfold age_bound, bound_cell_test. destruct bound as [n |]; cbn.
  - destruct (n =? 0); cbn.
    + f_equal. symmetry. by apply where_rows_all.
    + by rewrite filter_on_where by exact Hc.
  - f_equal. symmetry. by apply where_rows_all.
Qed.

Lemma bound_test_inactive (bound : option Z) (cmp : Z -> Z -> bool) (age : option Z) :
  truthy bound = false -> bound_test bound cmp age = true.
Proof.
  destruct bound as [n |]; cbn; [| done]. by destruct (n =? 0).
Qed.

Lemma bind_Ok_l {A B : Type} (a : A) (f : A -> result B) : Ok a ≫= f = f a.
Proof. reflexivity. Qed.

Lemma in_filter_columns (c : string) :
  (c = col_gender \/ c = col_qualification \/ c = col_internship \/ c = col_laptop
   \/ c = col_smartphone \/ c = col_district \/ c = col_hours \/ c = "ID" \/ c = col_age) ->
  c ∈ filter_columns.
Proof. unfold filter_columns. rewrite !elem_of_cons. tauto. Qed.

Section RowFilter.

Variable to_datetime : cell -> option date.
Variable today : date.

Lemma setitem_age (frame : DataFrame) :
  setitem frame "Age"
    (map (fun v => age_cell (calculate_age to_datetime today v))
         (map (fun r => loc r col_age) (rows frame)))
  = {| columns := if decide ("Age" ∈ columns frame) then columns frame
                  else columns frame ++ ["Age"];
       rows := map (with_age to_datetime today) (rows frame) |}.
Proof.
  unfold setitem. f_equal. rewrite map_map. apply zip_with_map_r.
Qed.

Lemma with_age_loc_id (r : gmap string cell) :
  loc (with_age to_datetime today r) "ID" = loc r "ID".
Proof. unfold with_age, loc. by rewrite lookup_insert_ne. Qed.

Lemma with_age_loc_age (r : gmap string cell) :
  loc (with_age to_datetime today r) "Age"
  = age_cell (calculate_age to_datetime today (loc r col_age)).
Proof. unfold with_age, loc at 1. by rewrite lookup_insert_eq. Qed.

Lemma view_test_with_age st (mode : string) (r : gmap string cell) :
  view_test st mode (with_age to_datetime today r) = view_test st mode r.
Proof. unfold view_test. by rewrite with_age_loc_id. Qed.

Lemma bound_cell_test_ge (bound : option Z) (r : gmap string cell) :
  bound_cell_test bound cell_ge (with_age to_datetime today r)
  = bound_test bound (fun a n => n <=? a)
      (calculate_age to_datetime today (loc r col_age)).
Proof.
  unfold bound_cell_test, bound_test. rewrite with_age_loc_age.
  destruct bound as [n |]; [| done]. destruct (n =? 0); [done |].
  by destruct (calculate_age _ _ _).
Qed.

Lemma bound_cell_test_le (bound : option Z) (r : gmap string cell) :
  bound_cell_test bound cell_le (with_age to_datetime today r)
  = bound_test bound (fun a n => a <=? n)
      (calculate_age to_datetime today (loc r col_age)).
Proof.
  unfold bound_cell_test, bound_test. rewrite with_age_loc_age.
  destruct bound as [n |]; [| done]. destruct (n =? 0); [done |].
  by destruct (calculate_age _ _ _).
Qed.

Lemma age_filter_where (frame : DataFrame) (filters : Filters) :
  col_age ∈ columns frame ->
  age_filter to_datetime today frame filters
  = Ok (if truthy (f_min_age filters) || truthy (f_max_age filters)
        then where_rows (fun r => bound_cell_test (f_min_age filters) cell_ge r
                                  && bound_cell_test (f_max_age filters) cell_le r)
               {| columns := if decide ("Age" ∈ columns frame) then columns frame
                             else columns frame ++ ["Age"];
                  rows := map (with_age to_datetime today) (rows frame) |}
        else frame).
Proof.
  intros Hc. unfold age_filter.
  destruct (truthy (f_min_age filters) || truthy (f_max_age filters)); [| done].
  rewrite getitem_Ok by exact Hc. rewrite bind_Ok_l. cbn zeta.
  rewrite setitem_age.
  assert (Ha : forall p,
            "Age" ∈ columns
              (where_rows p
                 {| columns := if decide ("Age" ∈ columns frame) then columns frame
                               else columns frame ++ ["Age"];
                    rows := map (with_age to_datetime today) (rows frame) |})).
  { intros p. cbn. case_decide; [done |]. apply elem_of_app. right.
    by apply list_elem_of_singleton. }
  rewrite <- (where_rows_all (fun _ => true) {| columns := _; rows := _ |}) at 1 by done.
  rewrite age_bound_where by apply Ha. rewrite bind_Ok_l.
  rewrite age_bound_where by apply Ha.
  rewrite !where_rows_where_rows. f_equal.
Qed.

End RowFilter.

Lemma omap_filter_sublist {A B : Type} (f : A -> option B) (p : A -> bool) (l : list A) :
  omap f (List.filter p l) `sublist_of` omap f l.
Proof.
  induction l as [| a l IH]; [done |]. cbn.
  destruct (p a); cbn; destruct (f a); try done.
  - by apply sublist_skip.
  - by apply sublist_cons.
Qed.

Lemma frame_ids_with_age
    (to_datetime : cell -> option date) (today : date)
    (cols : list string) (rs : list (gmap string cell)) :
  frame_ids {| columns := cols; rows := map (with_age to_datetime today) rs |}
  = frame_ids {| columns := cols; rows := rs |}.
Proof.
  unfold frame_ids; cbn. induction rs as [| r rs IH]; [done |]. cbn.
  rewrite IH. unfold row_id, with_age. by rewrite lookup_insert_ne.
Qed.

Lemma omap_sublist {A B : Type} (f : A -> option B) (l1 l2 : list A) :
  l1 `sublist_of` l2 -> omap f l1 `sublist_of` omap f l2.
Proof.
  induction 1 as [| a l1 l2 _ IH | a l1 l2 _ IH]; cbn; [done | |].
  - destruct (f a); [by apply sublist_skip | exact IH].
  - destruct (f a); [by apply sublist_cons | exact IH].
Qed.

(** X12. On a dataset that has the columns the filters read, whenever
    the search block returns, [apply_filters] returns exactly the rows of
    the searched frame that pass every other chosen test (the seven
    categorical choices, contact, interview, both age bounds, view mode),
    in the order of the dataset.  The searched frame has the columns of
    the dataset and a subsequence of its rows: the dataset itself for an
    empty search, and the rows in which some column matches when
    [str.contains] answers with the matches of each text.  The ids of the
    result are a subsequence of the ids of the dataset.  With an age
    bound set each returned row carries its computed [Age]. *)
Theorem apply_filters_is_row_filter
    (to_datetime : cell -> option date) (today : date)
    (str_contains : string -> list string -> result (list bool))
    (st : session_state) (df0 searched : DataFrame) (filters : Filters) :
  has_filter_columns df0 = true ->
  search_filter str_contains df0 filters = Ok searched ->
  apply_filters to_datetime today str_contains st df0 filters
  = Ok (filtered_frame to_datetime today st searched filters)
  /\ columns searched = columns df0
  /\ rows searched `sublist_of` rows df0
  /\ (f_search filters = "" -> searched = df0)
  /\ (forall matches,
        (forall texts, str_contains (f_search filters) texts = Ok (map matches texts)) ->
        f_search filters <> "" ->
        searched = where_rows (search_row matches df0) df0)
  /\ frame_ids (filtered_frame to_datetime today st searched filters)
       `sublist_of` frame_ids df0.
Proof.
  intros Hcols Hsearch.
  destruct (search_filter_inv _ _ _ _ Hsearch) as (Hsc & Hsr & Hse).
  split; [| split; [exact Hsc | split; [exact Hsr | split; [exact Hse | split]]]].
  2:{ intros matches Hm Hne.
      rewrite (search_filter_matches str_contains matches) in Hsearch by assumption.
      by injection Hsearch. }
  2:{ transitivity (frame_ids searched); [| by apply omap_sublist].
      unfold filtered_frame. cbn zeta.
      destruct (truthy (f_min_age filters) || truthy (f_max_age filters)).
      - rewrite frame_ids_with_age. apply omap_filter_sublist.
      - apply omap_filter_sublist. }
  pose proof (has_filter_columns_spec df0 Hcols) as Hc.
  rewrite <- Hsc in Hc.
  assert (Hin : forall c p, c ∈ filter_columns -> c ∈ columns (where_rows p searched))
    by (intros; cbn; auto).
  unfold apply_filters. cbn zeta. rewrite Hsearch, bind_Ok_l.
  rewrite <- (where_rows_all (fun _ => true) searched) at 1 by done.
  do 7 (rewrite categorical_where by (apply Hin, in_filter_columns; tauto);
        rewrite bind_Ok_l, where_rows_where_rows).
  rewrite contact_filter_where by (apply Hin, in_filter_columns; tauto).
  rewrite bind_Ok_l, where_rows_where_rows.
  rewrite interview_filter_where by (apply Hin, in_filter_columns; tauto).
  rewrite bind_Ok_l, where_rows_where_rows.
  rewrite age_filter_where by (apply Hin, in_filter_columns; tauto).
  rewrite bind_Ok_l. unfold filtered_frame. cbn zeta.
  destruct (truthy (f_min_age filters) || truthy (f_max_age filters)) eqn:Eact.
  - rewrite view_mode_filter_where.
    2:{ cbn. case_decide; [| apply elem_of_app; left];
          apply Hc, in_filter_columns; tauto. }
    f_equal. rewrite where_rows_where_rows. unfold where_rows; cbn [columns rows].
    f_equal. rewrite filter_map_comm, filter_filter_and. f_equal.
    apply filter_ext. intros r. unfold row_passes.
    by rewrite bound_cell_test_ge, bound_cell_test_le, view_test_with_age, !andb_assoc.
  - rewrite view_mode_filter_where by (apply Hin, in_filter_columns; tauto).
    f_equal. rewrite where_rows_where_rows. unfold where_rows. f_equal.
    apply filter_ext. intros r. unfold row_passes.
    apply orb_false_elim in Eact as [E1 E2].
    rewrite (bound_test_inactive _ _ _ E1), (bound_test_inactive _ _ _ E2).
    by rewrite !andb_true_r.
Qed.

Lemma apply_filters_is_row_filter_witness :
  apply_filters sample_to_datetime sample_today literal_contains
    sample_state sample_df search_full_time
  = Ok (filtered_frame sample_to_datetime sample_today sample_state
          (getitem_mask sample_df [true; false; true]) search_full_time)
  /\ columns (getitem_mask sample_df [true; false; true]) = columns sample_df
  /\ rows (getitem_mask sample_df [true; false; true]) `sublist_of` rows sample_df
  /\ (f_search search_full_time = "" ->
      getitem_mask sample_df [true; false; true] = sample_df)
  /\ (forall matches,
        (forall texts,
           literal_contains (f_search search_full_time) texts = Ok (map matches texts)) ->
        f_search search_full_time <> "" ->
        getitem_mask sample_df [true; false; true]
        = where_rows (search_row matches sample_df) sample_df)
  /\ frame_ids (filtered_frame sample_to_datetime sample_today sample_state
                  (getitem_mask sample_df [true; false; true]) search_full_time)
       `sublist_of` frame_ids sample_df.
Proof.
  apply (apply_filters_is_row_filter sample_to_datetime sample_today literal_contains
           sample_state sample_df (getitem_mask sample_df [true; false; true])
           search_full_time).
  - vm_compute. reflexivity.
  - vm_compute. reflexivity.
Defined.

Example search_sample :
  filtered_ids (apply_filters sample_to_datetime sample_today literal_contains
                  sample_state sample_df search_full_time) = Ok [0]
  /\ filtered_ids (search_filter literal_contains sample_df search_full_time)
     = Ok [0; 2]
  /\ search_filter literal_contains sample_df search_open_paren
     = Raise (ReError "(")
  /\ apply_filters sample_to_datetime sample_today literal_contains
       sample_state sample_df search_open_paren
     = Raise (ReError "(").
Proof. repeat split; vm_compute; reflexivity. Qed.

(** ** When the filter fails *)

Lemma bind_Raise {A B : Type} (m : result A) (f : A -> result B) (e : exn) :
  m ≫= f = Raise e -> m = Raise e \/ exists a, m = Ok a /\ f a = Raise e.
Proof.
  destruct m as [a | e0]; intros H.
  - right. exists a. by split.
  - left. cbn in H. by injection H as ->.
Qed.

Lemma filter_on_Raise (frame : DataFrame) (c : string) (test : cell -> bool) (e : exn) :
  filter_on frame c test = Raise e -> e = KeyError c /\ c ∉ columns frame.
Proof.
  intros H. destruct (decide (c ∈ columns frame)) as [Hc | Hc].
  - by rewrite filter_on_Ok in H.
  - unfold filter_on, getitem in H. rewrite decide_False in H by exact Hc.
    by injection H as <-.
Qed.

Lemma categorical_Raise (frame : DataFrame) (c value : string) (e : exn) :
  categorical frame c value = Raise e -> e = KeyError c /\ c ∉ columns frame.
Proof. unfold categorical. case_decide; [done | apply filter_on_Raise]. Qed.

Lemma contact_filter_Raise st (frame : DataFrame) (filters : Filters) (e : exn) :
  contact_filter st frame filters = Raise e -> e = KeyError "ID" /\ "ID" ∉ columns frame.
Proof. unfold contact_filter. repeat case_decide; first [done | apply filter_on_Raise]. Qed.

Lemma interview_filter_Raise st (frame : DataFrame) (filters : Filters) (e : exn) :
  interview_filter st frame filters = Raise e ->
  e = KeyError "ID" /\ "ID" ∉ columns frame.
Proof.
  unfold interview_filter. repeat case_decide; first [done | apply filter_on_Raise].
Qed.

Lemma view_mode_filter_Raise st (frame : DataFrame) (filters : Filters) (e : exn) :
  view_mode_filter st frame filters = Raise e ->
  e = KeyError "ID" /\ "ID" ∉ columns frame.
Proof.
  unfold view_mode_filter. repeat case_decide; first [done | apply filter_on_Raise].
Qed.

Lemma age_filter_Raise
    (to_datetime : cell -> option date) (today : date)
    (frame : DataFrame) (filters : Filters) (e : exn) :
  age_filter to_datetime today frame filters = Raise e ->
  e = KeyError col_age /\ col_age ∉ columns frame.
Proof.
  intros H. destruct (decide (col_age ∈ columns frame)) as [Hc | Hc].
  - rewrite age_filter_where in H by exact Hc. discriminate.
  - unfold age_filter in H.
    destruct (truthy (f_min_age filters) || truthy (f_max_age filters)); [| done].
    unfold getitem in H. rewrite decide_False in H by exact Hc.
    by injection H as <-.
Qed.

(** X13. [apply_filters] fails in two ways only.  An exception of the
    search block, which is an exception [str.contains] raised on one of
    the columns for a search that is not empty ([re.error] for a term that
    is no valid pattern), is passed on.  Any other failure is a
    [KeyError] for a label that one of the chosen filters reads and the
    dataset does not have as a column; in particular, once the search
    block has returned, a chosen gender on a dataset without the Gender
    column raises [KeyError] for that label. *)
Theorem apply_filters_fails_on_missing_column
    (to_datetime : cell -> option date) (today : date)
    (str_contains : string -> list string -> result (list bool))
    (st : session_state) (df0 : DataFrame) (filters : Filters) :
  (forall e,
     apply_filters to_datetime today str_contains st df0 filters = Raise e ->
     search_filter str_contains df0 filters = Raise e
     \/ exists c, e = KeyError c /\ c ∈ filter_columns /\ c ∉ columns df0)
  /\ (forall e,
        search_filter str_contains df0 filters = Raise e ->
        apply_filters to_datetime today str_contains st df0 filters = Raise e
        /\ f_search filters <> ""
        /\ exists c, c ∈ columns df0
                    /\ str_contains (f_search filters)
                         (map (fun r => astype_str (loc r c)) (rows df0)) = Raise e)
  /\ (forall searched,
        search_filter str_contains df0 filters = Ok searched ->
        f_gender filters <> "All" -> col_gender ∉ columns df0 ->
        apply_filters to_datetime today str_contains st df0 filters
        = Raise (KeyError col_gender)).
Proof.
  split; [| split].
  - intros e H. unfold apply_filters in H. cbn zeta in H.
    apply bind_Raise in H as [H | (d & E0 & H)]; [by left |]. right.
    apply search_filter_narrowed in E0 as [C _].
    do 7 (apply bind_Raise in H as [H | (d' & E & H)];
          [ apply categorical_Raise in H as [-> Hc];
            eexists; split; [reflexivity |];
            split; [apply in_filter_columns; tauto | by rewrite <- C]
          | apply categorical_narrowed in E as [C' _];
            rewrite <- C' in C; clear C' d; rename d' into d ]).
    apply bind_Raise in H as [H | (d' & E & H)].
    { apply contact_filter_Raise in H as [-> Hc].
      eexists; split; [reflexivity |].
      split; [apply in_filter_columns; tauto | by rewrite <- C]. }
    apply contact_filter_narrowed in E as [C' _].
    rewrite <- C' in C; clear C' d; rename d' into d.
    apply bind_Raise in H as [H | (d' & E & H)].
    { apply interview_filter_Raise in H as [-> Hc].
      eexists; split; [reflexivity |].
      split; [apply in_filter_columns; tauto | by rewrite <- C]. }
    apply interview_filter_narrowed in E as [C' _].
    rewrite <- C' in C; clear C' d; rename d' into d.
    apply bind_Raise in H as [H | (d' & E & H)].
    { apply age_filter_Raise in H as [-> Hc].
      eexists; split; [reflexivity |].
      split; [apply in_filter_columns; tauto | by rewrite <- C]. }
    apply view_mode_filter_Raise in H as [-> Hc].
    eexists; split; [reflexivity |].
    split; [apply in_filter_columns; tauto |].
    intros Hin. apply Hc.
    destruct (decide (col_age ∈ columns d)) as [Ha | Ha].
    + rewrite age_filter_where in E by exact Ha. injection E as <-.
      destruct (truthy (f_min_age filters) || truthy (f_max_age filters)); cbn.
      * case_decide; [| apply elem_of_app; left]; by rewrite C.
      * by rewrite C.
    + unfold age_filter in E.
      destruct (truthy (f_min_age filters) || truthy (f_max_age filters)).
      * unfold getitem in E. by rewrite decide_False in E.
      * injection E as <-. by rewrite C.
  - intros e H. split; [| by apply search_filter_Raise].
    unfold apply_filters. cbn zeta. by rewrite H.
  - intros searched Hsearch Hg Hc. unfold apply_filters. cbn zeta.
    rewrite Hsearch, bind_Ok_l.
    apply search_filter_narrowed in Hsearch as [C _].
    unfold categorical at 7. rewrite decide_False by exact Hg.
    unfold filter_on, getitem. rewrite C. by rewrite decide_False.
Qed.

Lemma apply_filters_fails_on_missing_column_witness :
  apply_filters sample_to_datetime sample_today literal_contains
    (run (UploadFile (Ok rated_raw)) initial_state) rated_df female_only
  = Raise (KeyError col_gender)
  /\ (search_filter literal_contains rated_df female_only = Raise (KeyError col_gender)
      \/ exists c, KeyError col_gender = KeyError c /\ c ∈ filter_columns
                   /\ c ∉ columns rated_df)
  /\ apply_filters sample_to_datetime sample_today literal_contains
       sample_state sample_df search_open_paren
     = Raise (ReError "(").
Proof.
  destruct (apply_filters_fails_on_missing_column sample_to_datetime sample_today
              literal_contains (run (UploadFile (Ok rated_raw)) initial_state)
              rated_df female_only) as (Hany & _ & Hgender).
  destruct (apply_filters_fails_on_missing_column sample_to_datetime sample_today
              literal_contains sample_state sample_df search_open_paren)
    as (_ & Hsearch & _).
  assert (E : apply_filters sample_to_datetime sample_today literal_contains
                (run (UploadFile (Ok rated_raw)) initial_state) rated_df female_only
              = Raise (KeyError col_gender)).
  { apply (Hgender rated_df); [reflexivity | discriminate |].
    vm_compute. intros H. repeat (apply elem_of_cons in H as [H | H]; [discriminate |]).
    by apply elem_of_nil in H. }
  split; [exact E |]. split; [by apply Hany |].
  apply (Hsearch (ReError "(")). vm_compute. reflexivity.
Defined.


(** * Further properties of the tabs *)

(** ** Pages *)

Lemma concat_chunks {A : Type} (k n : nat) (l : list A) :
  concat (map (fun i => take k (drop (i * k) l)) (seq 0 n)) = take (n * k) l.
Proof.
  induction n as [| n IH]; [done |].
  rewrite seq_S, map_app, concat_app, IH. cbn [map concat]. rewrite app_nil_r.
  rewrite take_take_drop. f_equal. lia.
Qed.

Lemma page_df_rows (filtered_df : DataFrame) (i : nat) :
  rows (page_df filtered_df (Z.of_nat (S i)))
  = take 5 (drop (i * 5) (rows filtered_df)).
Proof.
  unfold page_df, iloc_slice, items_per_page. cbn [rows]. f_equal.
  - f_equal. lia.
  - f_equal. lia.
Qed.

(** X14. For a view that has rows, the pages 1 to [total_pages] show
    every row exactly once and in order (their concatenation is the
    view), and each of these pages has between one and five rows. *)
Theorem pages_cover_view (filtered_df : DataFrame) :
  0 < len filtered_df ->
  concat (map (fun p => rows (page_df filtered_df (Z.of_nat p)))
              (seq 1 (Z.to_nat (total_pages filtered_df))))
  = rows filtered_df
  /\ forall page, 1 <= page <= total_pages filtered_df ->
       (1 <= length (rows (page_df filtered_df page)) <= 5)%nat.
Proof.
  intros Hlen. unfold len in Hlen.
  set (n := length (rows filtered_df)) in *.
  assert (Hq : 0 <= (Z.of_nat n - 1) / 5) by (apply Z.div_pos; lia).
  assert (Hlo : 5 * ((Z.of_nat n - 1) / 5) <= Z.of_nat n - 1)
    by (apply Z.mul_div_le; lia).
  assert (Hhi : Z.of_nat n - 1 < 5 * Z.succ ((Z.of_nat n - 1) / 5))
    by (apply Z.mul_succ_div_gt; lia).
  split.
  - rewrite <- seq_shift, map_map.
    rewrite (map_ext _ (fun i => take 5 (drop (i * 5) (rows filtered_df))))
      by (intros i; apply page_df_rows).
    rewrite concat_chunks. apply take_ge.
    unfold total_pages, len, items_per_page. fold n. lia.
  - intros page [Hp1 Hp2]. unfold total_pages, len, items_per_page in Hp2. fold n in Hp2.
    unfold page_df, iloc_slice, items_per_page. cbn [rows].
    rewrite length_take, length_drop. fold n. lia.
Qed.

Lemma pages_cover_view_witness :
  concat (map (fun p => rows (page_df sample_df (Z.of_nat p)))
              (seq 1 (Z.to_nat (total_pages sample_df))))
  = rows sample_df
  /\ forall page, 1 <= page <= total_pages sample_df ->
       (1 <= length (rows (page_df sample_df page)) <= 5)%nat.
Proof. apply (pages_cover_view sample_df). reflexivity. Defined.

(** ** Lists of the contact and onboarding tabs *)

Lemma elem_of_interested (st : session_state) (id : Z) :
  id ∈ interested st <->
  exists status, contact_status st !! id = Some status
                 /\ py_in "Interested" status = true.
Proof.
  unfold interested. rewrite list_elem_of_In, in_map_iff. split.
  - intros ([i status] & <- & H). apply filter_In in H as [H Hp].
    apply list_elem_of_In, elem_of_map_to_list in H. eauto.
  - intros (status & H & Hp). exists (id, status). split; [done |].
    apply filter_In. split; [| done]. by apply list_elem_of_In, elem_of_map_to_list.
Qed.

Lemma elem_of_follow_ups (st : session_state) (id : Z) :
  id ∈ follow_ups st <->
  exists status, contact_status st !! id = Some status
                 /\ py_in "Follow-up" status || py_in "No Answer" status = true.
Proof.
  unfold follow_ups. rewrite list_elem_of_In, in_map_iff. split.
  - intros ([i status] & <- & H). apply filter_In in H as [H Hp].
    apply list_elem_of_In, elem_of_map_to_list in H. eauto.
  - intros (status & H & Hp). exists (id, status). split; [done |].
    apply filter_In. split; [| done]. by apply list_elem_of_In, elem_of_map_to_list.
Qed.

Lemma known_status_cases (status : string) :
  status ∈ contact_options ->
  status = "Not Contacted" \/ status = "Called - No Answer"
  \/ status = "Called - Interested" \/ status = "Called - Not Interested"
  \/ status = "Email Sent" \/ status = "Follow-up Needed".
Proof.
  unfold contact_options. rewrite !elem_of_cons, elem_of_nil. tauto.
Qed.

(** X15. In every reachable state the Interested list holds exactly the
    candidates whose contact status is Called - Interested or Called -
    Not Interested, the follow-up list exactly those with Called - No
    Answer or Follow-up Needed, and the ready list exactly the shortlisted
    candidates of the Interested list; the ready count is at most the
    shortlisted count. *)
Theorem contact_lists_in_reachable_states (st : session_state) (id : Z) :
  reachable st ->
  (id ∈ interested st <->
     get_contact_status st id = "Called - Interested"
     \/ get_contact_status st id = "Called - Not Interested")
  /\ (id ∈ follow_ups st <->
        get_contact_status st id = "Called - No Answer"
        \/ get_contact_status st id = "Follow-up Needed")
  /\ (id ∈ ready_candidates st <-> id ∈ shortlisted st /\ id ∈ interested st)
  /\ candidates_ready st <= set_len (shortlisted st).
Proof.
  intros Hreach. apply reachable_statuses_known in Hreach.
  assert (Hcases : forall status, contact_status st !! id = Some status ->
            status = "Not Contacted" \/ status = "Called - No Answer"
            \/ status = "Called - Interested" \/ status = "Called - Not Interested"
            \/ status = "Email Sent" \/ status = "Follow-up Needed").
  { intros status H. apply known_status_cases.
    by eapply (map_Forall_lookup_1 _ _ _ _ Hreach). }
  split; [| split; [| split]].
  - rewrite elem_of_interested. unfold get_contact_status.
    destruct (contact_status st !! id) as [status |] eqn:E; cbn.
    + split.
      * intros (s' & [= <-] & Hp).
        destruct (Hcases status eq_refl) as [-> | [-> | [-> | [-> | [-> | ->]]]]];
          first [discriminate Hp | tauto].
      * intros [-> | ->]; eexists; (split; [reflexivity |]); reflexivity.
    + split; [intros (s' & ? & _); discriminate | intros [? | ?]; discriminate].
  - rewrite elem_of_follow_ups. unfold get_contact_status.
    destruct (contact_status st !! id) as [status |] eqn:E; cbn.
    + split.
      * intros (s' & [= <-] & Hp).
        destruct (Hcases status eq_refl) as [-> | [-> | [-> | [-> | [-> | ->]]]]];
          first [discriminate Hp | tauto].
      * intros [-> | ->]; eexists; (split; [reflexivity |]); reflexivity.
    + split; [intros (s' & ? & _); discriminate | intros [? | ?]; discriminate].
  - rewrite elem_of_ready_candidates, elem_of_interested. tauto.
  - unfold candidates_ready, set_len, ready_candidates.
    apply Nat2Z.inj_le. unfold size, set_size; cbn.
    apply filter_length_le.
Qed.

Lemma contact_lists_in_reachable_states_witness :
  let st := run (ContactSelect 1 3) (run (ShortlistClick 1) sample_state) in
  (1 ∈ interested st <->
     get_contact_status st 1 = "Called - Interested"
     \/ get_contact_status st 1 = "Called - Not Interested")
  /\ (1 ∈ follow_ups st <->
        get_contact_status st 1 = "Called - No Answer"
        \/ get_contact_status st 1 = "Follow-up Needed")
  /\ (1 ∈ ready_candidates st <-> 1 ∈ shortlisted st /\ 1 ∈ interested st)
  /\ candidates_ready st <= set_len (shortlisted st).
Proof.
  apply (contact_lists_in_reachable_states
           (run (ContactSelect 1 3) (run (ShortlistClick 1) sample_state)) 1).
  do 2 apply reachable_run. exact sample_state_reachable.
Defined.


(** ** The three views *)

Lemma filter_three_lengths {A : Type} (a b : A -> bool) (l : list A) :
  (forall x, a x && b x = false) ->
  (length (List.filter a l) + length (List.filter b l)
   + length (List.filter (fun x => negb (a x) && negb (b x)) l) = length l)%nat.
Proof.
  intros Hab. induction l as [| x l IH]; [done |]. cbn.
  specialize (Hab x). destruct (a x), (b x); cbn in *; try discriminate; lia.
Qed.

Lemma isin_set_disjoint (s1 s2 : gset Z) (v : cell) :
  s1 ## s2 -> isin_set s1 v && isin_set s2 v = false.
Proof.
  intros Hd. destruct v as [| s | n]; try done. cbn.
  apply andb_false_iff. destruct (decide (n ∈ s1)) as [H1 | H1].
  - right. apply bool_decide_eq_false_2. intros H2. by apply (Hd n).
  - left. by apply bool_decide_eq_false_2.
Qed.

(** X16. In every reachable state the Shortlisted, Rejected and
    Pending views split any frame that has the [ID] column: the three
    filters return, each row is in exactly one of the three results, and
    their row counts add up to the row count of the frame. *)
Theorem view_modes_partition (st : session_state) (frame : DataFrame)
    (fs fr fp : Filters) :
  reachable st ->
  "ID" ∈ columns frame ->
  f_view_mode fs = "Shortlisted" ->
  f_view_mode fr = "Rejected" ->
  f_view_mode fp = "Pending" ->
  exists s r p,
    view_mode_filter st frame fs = Ok s
    /\ view_mode_filter st frame fr = Ok r
    /\ view_mode_filter st frame fp = Ok p
    /\ (length (rows s) + length (rows r) + length (rows p)
        = length (rows frame))%nat
    /\ forall row, row ∈ rows frame ->
         (row ∈ rows s /\ (row ∉ rows r) /\ (row ∉ rows p))
         \/ ((row ∉ rows s) /\ row ∈ rows r /\ (row ∉ rows p))
         \/ ((row ∉ rows s) /\ (row ∉ rows r) /\ row ∈ rows p).
Proof.
  intros Hreach Hid Es Er Ep. apply reachable_disjoint in Hreach.
  unfold disjoint_dispositions in Hreach.
  rewrite !view_mode_filter_where by exact Hid. rewrite Es, Er, Ep.
  do 3 eexists. split; [reflexivity |]. split; [reflexivity |]. split; [reflexivity |].
  unfold where_rows; cbn [rows].
  set (a := fun row : gmap string cell => isin_set (shortlisted st) (loc row "ID")).
  set (b := fun row : gmap string cell => isin_set (rejected st) (loc row "ID")).
  assert (Hab : forall row, a row && b row = false)
    by (intros row; by apply isin_set_disjoint).
  assert (Hs : forall row, view_test st "Shortlisted" row = a row).
  { intros row. unfold view_test. by rewrite decide_True. }
  assert (Hr : forall row, view_test st "Rejected" row = b row).
  { intros row. unfold view_test.
    rewrite decide_False by discriminate. by rewrite decide_True. }
  assert (Hp : forall row, view_test st "Pending" row = negb (a row) && negb (b row)).
  { intros row. unfold view_test.
    rewrite !decide_False by discriminate. by rewrite decide_True. }
  rewrite (filter_ext _ _ Hs), (filter_ext _ _ Hr), (filter_ext _ _ Hp).
  split.
  - apply (filter_three_lengths a b). exact Hab.
  - intros row Hrow. rewrite !list_elem_of_In, !filter_In, <- !list_elem_of_In.
    specialize (Hab row).
    destruct (a row), (b row); cbn in *; try discriminate;
      [left | right; left | right; right]; repeat split; try done;
      intros [_ ?]; discriminate.
Qed.

Lemma view_modes_partition_witness :
  exists s r p,
    view_mode_filter (run (RejectClick 2) (run (ShortlistClick 0) sample_state))
      sample_df (view_only "Shortlisted") = Ok s
    /\ view_mode_filter (run (RejectClick 2) (run (ShortlistClick 0) sample_state))
         sample_df (view_only "Rejected") = Ok r
    /\ view_mode_filter (run (RejectClick 2) (run (ShortlistClick 0) sample_state))
         sample_df (view_only "Pending") = Ok p
    /\ (length (rows s) + length (rows r) + length (rows p)
        = length (rows sample_df))%nat
    /\ forall row, row ∈ rows sample_df ->
         (row ∈ rows s /\ (row ∉ rows r) /\ (row ∉ rows p))
         \/ ((row ∉ rows s) /\ row ∈ rows r /\ (row ∉ rows p))
         \/ ((row ∉ rows s) /\ (row ∉ rows r) /\ row ∈ rows p).
Proof.
  apply (view_modes_partition
           (run (RejectClick 2) (run (ShortlistClick 0) sample_state)) sample_df
           (view_only "Shortlisted") (view_only "Rejected") (view_only "Pending"));
    try reflexivity.
  - do 2 apply reachable_run. exact sample_state_reachable.
  - vm_compute. repeat constructor.
Defined.

(** ** The full report on any frame *)

(** X17. The full report needs only the [ID] column: without it the
    report raises [KeyError] for that label; with it the report is
    produced, has the rows of the dataset, holds the four derived series
    under Status, Contact_Status, Rating and Interview_Date (replacing a
    column of the dataset that has one of these names), and leaves every
    other column as it was. *)
Theorem full_report_columns (frame : DataFrame) (st : session_state) :
  ("ID" ∉ columns frame -> full_report frame st = Raise (KeyError "ID"))
  /\ ("ID" ∈ columns frame ->
      exists report ids,
        getitem frame "ID" = Ok ids
        /\ full_report frame st = Ok report
        /\ length (rows report) = length (rows frame)
        /\ (forall c, c ∉ report_columns -> getitem report c = getitem frame c)
        /\ getitem report "Status" = Ok (map (fun v => Str (get_status_cell st v)) ids)
        /\ getitem report "Contact_Status"
           = Ok (map (fun v => Str (dict_get (contact_status st) v "Not Contacted")) ids)
        /\ getitem report "Rating" = Ok (map (fun v => Int (dict_get (ratings st) v 0)) ids)
        /\ getitem report "Interview_Date"
           = Ok (map (fun v => Str (dict_get (interview_scheduled st) v "Not Scheduled"))
                     ids)).
Proof.
  split.
  - intros Hno. unfold full_report, getitem. by rewrite decide_False.
  - intros Hcol. pose proof (getitem_Ok frame "ID" Hcol) as Hid.
    set (ids := map (fun r => loc r "ID") (rows frame)) in *.
    assert (Hn : length ids = length (rows frame)) by (subst ids; apply length_map).
    set (v1 := map (fun v => Str (get_status_cell st v)) ids).
    set (v2 := map (fun v => Str (dict_get (contact_status st) v "Not Contacted")) ids).
    set (v3 := map (fun v => Int (dict_get (ratings st) v 0)) ids).
    set (v4 := map (fun v => Str (dict_get (interview_scheduled st) v "Not Scheduled"))
                   ids).
    set (f1 := setitem frame "Status" v1).
    set (f2 := setitem f1 "Contact_Status" v2).
    set (f3 := setitem f2 "Rating" v3).
    set (f4 := setitem f3 "Interview_Date" v4).
    assert (L1 : length (rows f1) = length (rows frame)).
    { apply setitem_length. subst v1. by rewrite length_map. }
    assert (L2 : length (rows f2) = length (rows frame)).
    { rewrite <- L1. apply setitem_length. subst v2. rewrite length_map. lia. }
    assert (L3 : length (rows f3) = length (rows frame)).
    { rewrite <- L2. apply setitem_length. subst v3. rewrite length_map. lia. }
    assert (L4 : length (rows f4) = length (rows frame)).
    { rewrite <- L3. apply setitem_length. subst v4. rewrite length_map. lia. }
    assert (K1 : forall c, c <> "Status" -> getitem f1 c = getitem frame c).
    { intros c Hne. apply getitem_setitem_ne; [done |]. subst v1. by rewrite length_map. }
    assert (K2 : forall c, c <> "Contact_Status" -> getitem f2 c = getitem f1 c).
    { intros c Hne. apply getitem_setitem_ne; [done |]. subst v2. rewrite length_map. lia. }
    assert (K3 : forall c, c <> "Rating" -> getitem f3 c = getitem f2 c).
    { intros c Hne. apply getitem_setitem_ne; [done |]. subst v3. rewrite length_map. lia. }
    assert (K4 : forall c, c <> "Interview_Date" -> getitem f4 c = getitem f3 c).
    { intros c Hne. apply getitem_setitem_ne; [done |]. subst v4. rewrite length_map. lia. }
    assert (E : full_report frame st = Ok f4).
    { unfold full_report. rewrite Hid. cbn.
      fold v1 f1. rewrite (K1 "ID"), Hid by done. cbn.
      fold v2 f2. rewrite (K2 "ID"), (K1 "ID"), Hid by done. cbn.
      fold v3 f3. rewrite (K3 "ID"), (K2 "ID"), (K1 "ID"), Hid by done. cbn.
      reflexivity. }
    exists f4, ids. split; [exact Hid |]. split; [exact E |]. split; [exact L4 |].
    split.
    { intros c Hc. unfold report_columns in Hc.
      rewrite !elem_of_cons, elem_of_nil in Hc.
      rewrite K4, K3, K2, K1; [done | | | |]; intros ->; tauto. }
    repeat split.
    + rewrite K4, K3, K2 by done. apply getitem_setitem_eq.
      subst v1. by rewrite length_map.
    + rewrite K4, K3 by done. apply getitem_setitem_eq.
      subst v2. rewrite length_map. lia.
    + rewrite K4 by done. apply getitem_setitem_eq.
      subst v3. rewrite length_map. lia.
    + apply getitem_setitem_eq. subst v4. rewrite length_map. lia.
Qed.

Lemma full_report_columns_witness :
  full_report rated_raw initial_state = Raise (KeyError "ID")
  /\ exists report ids,
       getitem rated_df "ID" = Ok ids
       /\ full_report rated_df initial_state = Ok report
       /\ length (rows report) = length (rows rated_df)
       /\ (forall c, c ∉ report_columns -> getitem report c = getitem rated_df c)
       /\ getitem report "Status"
          = Ok (map (fun v => Str (get_status_cell initial_state v)) ids)
       /\ getitem report "Contact_Status"
          = Ok (map (fun v => Str (dict_get (contact_status initial_state) v
                                            "Not Contacted")) ids)
       /\ getitem report "Rating"
          = Ok (map (fun v => Int (dict_get (ratings initial_state) v 0)) ids)
       /\ getitem report "Interview_Date"
          = Ok (map (fun v => Str (dict_get (interview_scheduled initial_state) v
                                            "Not Scheduled")) ids).
Proof.
  split.
  - apply (full_report_columns rated_raw initial_state).
    vm_compute. intros H. repeat (apply elem_of_cons in H as [H | H]; [discriminate |]).
    by apply elem_of_nil in H.
  - apply (full_report_columns rated_df initial_state).
    vm_compute. repeat constructor.
Defined.


(** * Further properties of the remark box *)

Lemma append_cons (a : ascii) (s t : string) :
  String.append (String a s) t = String a (String.append s t).
Proof. reflexivity. Qed.

Lemma append_assoc (s1 s2 s3 : string) :
  String.append (String.append s1 s2) s3 = String.append s1 (String.append s2 s3).
Proof.
  induction s1 as [| a s1 IH]; [done |]. rewrite !append_cons. f_equal. exact IH.
Qed.

Lemma append_nil_r (s : string) : String.append s "" = s.
Proof. induction s as [| a s IH]; [done |]. rewrite append_cons. f_equal. exact IH. Qed.

Lemma rev_app_append (s acc : string) :
  String.rev_app s acc = String.append (String.rev_app s "") acc.
Proof.
  revert acc. induction s as [| a s IH]; intros acc; [done |]. simpl.
  rewrite (IH (String a acc)), (IH (String a "")). by rewrite append_assoc.
Qed.

Lemma rev_cons (a : ascii) (s : string) :
  String.rev (String a s) = String.append (String.rev s) (String a "").
Proof. unfold String.rev. simpl. apply rev_app_append. Qed.

Lemma rev_append (p q : string) :
  String.rev (String.append p q) = String.append (String.rev q) (String.rev p).
Proof.
  induction p as [| a p IH].
  - change (String.rev q = String.append (String.rev q) "").
    by rewrite append_nil_r.
  - rewrite append_cons, !rev_cons, IH. by rewrite append_assoc.
Qed.

Lemma rev_involutive (s : string) : String.rev (String.rev s) = s.
Proof.
  induction s as [| a s IH]; [done |]. by rewrite rev_cons, rev_append, IH.
Qed.

Lemma rev_empty (s : string) : String.rev s = "" -> s = "".
Proof. intros H. by rewrite <- (rev_involutive s), H. Qed.

Lemma lstrip_empty_whitespace_only (s : string) :
  lstrip s = "" -> whitespace_only s = true.
Proof.
  assert (H : forall n s, (String.length s <= n)%nat ->
                          lstrip s = "" -> whitespace_only s = true).
  { clear s. induction n as [| n IH]; intros s Hlen Hs.
    - destruct s; [reflexivity | cbn in Hlen; lia].
    - destruct s as [| a s1]; [reflexivity |]. cbn in Hlen, Hs |- *.
      destruct (is_space1 a); [apply IH; [lia | exact Hs] |].
      destruct s1 as [| b s2]; [discriminate |]. cbn in Hlen.
      destruct (is_space2 a b); [apply IH; [lia | exact Hs] |].
      destruct s2 as [| c s3]; [discriminate |]. cbn in Hlen.
      destruct (is_space3 a b c); [apply IH; [lia | exact Hs] | discriminate]. }
  apply (H (String.length s)). lia.
Qed.

Lemma lstrip_no_leading_space (s : string) : leading_space (lstrip s) = false.
Proof.
  assert (H : forall n s, (String.length s <= n)%nat -> leading_space (lstrip s) = false).
  { clear s. induction n as [| n IH]; intros s Hlen.
    - destruct s; [reflexivity | cbn in Hlen; lia].
    - destruct s as [| a s1]; [reflexivity |]. cbn in Hlen. cbn [lstrip].
      destruct (is_space1 a) eqn:E1; [apply IH; lia |].
      destruct s1 as [| b s2]; [cbn; by rewrite E1 |]. cbn in Hlen.
      destruct (is_space2 a b) eqn:E2; [apply IH; lia |].
      destruct s2 as [| c s3]; [cbn; by rewrite E1, E2 |]. cbn in Hlen.
      destruct (is_space3 a b c) eqn:E3; [apply IH; lia |].
      cbn. by rewrite E1, E2, E3. }
  apply (H (String.length s)). lia.
Qed.

Lemma lstrip_rev_empty (u : string) :
  lstrip_rev u = "" ->
  u = "" \/ exists p chunk, u = String.append p chunk /\ reversed_space chunk = true.
Proof.
  assert (H : forall n u, (String.length u <= n)%nat -> lstrip_rev u = "" ->
            u = "" \/ exists p chunk,
                        u = String.append p chunk /\ reversed_space chunk = true).
  { clear u. induction n as [| n IH]; intros u Hlen Hu.
    - destruct u; [by left | cbn in Hlen; lia].
    - destruct u as [| a s1]; [by left |]. right. cbn in Hlen, Hu.
      destruct (is_space1 a) eqn:E1.
      { destruct (IH s1) as [-> | (p & chunk & -> & Hc)]; [lia | exact Hu | |].
        - exists "", (String a ""). by split.
        - exists (String a p), chunk. by split. }
      destruct s1 as [| b s2]; [discriminate |]. cbn in Hlen.
      destruct (is_space2 b a) eqn:E2.
      { destruct (IH s2) as [-> | (p & chunk & -> & Hc)]; [lia | exact Hu | |].
        - exists "", (String a (String b "")). by split.
        - exists (String a (String b p)), chunk. by split. }
      destruct s2 as [| c s3]; [discriminate |]. cbn in Hlen.
      destruct (is_space3 c b a) eqn:E3; [| discriminate].
      destruct (IH s3) as [-> | (p & chunk & -> & Hc)]; [lia | exact Hu | |].
      + exists "", (String a (String b (String c ""))). by split.
      + exists (String a (String b (String c p))), chunk. by split. }
  apply (H (String.length u)). lia.
Qed.

Lemma reversed_space_leading (p chunk : string) :
  reversed_space chunk = true ->
  leading_space (String.rev (String.append p chunk)) = true.
Proof.
  intros Hc. rewrite rev_append.
  destruct chunk as [| a [| b [| c [| d chunk]]]]; try discriminate; cbn in Hc;
    cbv beta iota delta [String.rev String.rev_app String.append leading_space];
    rewrite Hc; by rewrite ?orb_true_r.
Qed.

(** [strip] leaves a text empty exactly when it is white space only. *)
Lemma strip_empty_iff (s : string) :
  str_truthy (strip s) = negb (whitespace_only s).
Proof.
  destruct (whitespace_only s) eqn:Ews; cbn.
  - by rewrite strip_whitespace_only.
  - unfold strip, rstrip.
    destruct (String.rev (lstrip_rev (String.rev (lstrip s)))) as [| a r] eqn:E;
      [| done].
    exfalso. apply rev_empty in E.
    apply lstrip_rev_empty in E as [E | (p & chunk & E & Hc)].
    + apply rev_empty in E. apply lstrip_empty_whitespace_only in E. congruence.
    + pose proof (reversed_space_leading p chunk Hc) as Hl.
      rewrite <- E, rev_involutive, lstrip_no_leading_space in Hl. discriminate.
Qed.

(** X18. The Save button stores a remark whenever the text is not
    white space only: it then appends the text as typed (not stripped)
    with the time stamp at the end of that candidate's log, shows the
    confirmation, and leaves every other log and the rest of the session
    as they were. *)
Theorem save_remark_click_effect
    (now : string) (id : Z) (text : string) (st : session_state) :
  whitespace_only text = false ->
  save_remark_click now id text st
    = (add_remark now id text st, [Success "Remark saved!"])
  /\ get_remarks (fst (save_remark_click now id text st)) id
     = get_remarks st id ++ [{| timestamp := now; remark := text |}]
  /\ (forall id', id' <> id ->
        get_remarks (fst (save_remark_click now id text st)) id' = get_remarks st id')
  /\ shortlisted (fst (save_remark_click now id text st)) = shortlisted st
  /\ rejected (fst (save_remark_click now id text st)) = rejected st
  /\ contact_status (fst (save_remark_click now id text st)) = contact_status st
  /\ ratings (fst (save_remark_click now id text st)) = ratings st
  /\ interview_scheduled (fst (save_remark_click now id text st))
     = interview_scheduled st.
Proof.
  intros Hws.
  assert (E : save_remark_click now id text st
              = (add_remark now id text st, [Success "Remark saved!"])).
  { unfold save_remark_click. by rewrite strip_empty_iff, Hws. }
  rewrite E. cbn [fst]. split; [done |]. split; [apply get_remarks_add_remark |].
  split; [| done].
  intros id' Hne. unfold get_remarks at 1. cbn. by rewrite lookup_insert_ne.
Qed.

Lemma save_remark_click_effect_witness :
  save_remark_click "2024-03-14 10:00:00" 0 " Called, interested " sample_state
    = (add_remark "2024-03-14 10:00:00" 0 " Called, interested " sample_state,
       [Success "Remark saved!"])
  /\ get_remarks
       (fst (save_remark_click "2024-03-14 10:00:00" 0 " Called, interested "
               sample_state)) 0
     = get_remarks sample_state 0
       ++ [{| timestamp := "2024-03-14 10:00:00"; remark := " Called, interested " |}].
Proof.
  destruct (save_remark_click_effect "2024-03-14 10:00:00" 0 " Called, interested "
              sample_state) as (H1 & H2 & _); [reflexivity |].
  split; [exact H1 | exact H2].
Defined.


(** * The filter with nothing chosen *)

(** X19. With nothing chosen in the sidebar [apply_filters] reads no
    column: it returns the dataset unchanged, whatever columns the
    dataset has. *)
Theorem apply_filters_nothing_chosen
    (to_datetime : cell -> option date) (today : date)
    (str_contains : string -> list string -> result (list bool))
    (st : session_state) (df0 : DataFrame) (filters : Filters) :
  nothing_chosen filters = true ->
  apply_filters to_datetime today str_contains st df0 filters = Ok df0.
Proof.
  unfold nothing_chosen. rewrite !andb_true_iff, !bool_decide_eq_true.
  rewrite !negb_true_iff.
  intros (((((((((((((Hs & Hg) & Hq) & Hi) & Hl) & Hp) & Hd) & Ha) & Hc) & Hv) & Hage)
             & V1) & V2) & V3).
  assert (Hcat : forall frame c, categorical frame c "All" = Ok frame).
  { intros frame c. unfold categorical. by rewrite decide_True. }
  unfold apply_filters. cbn zeta.
  unfold search_filter. rewrite Hs, Hg, Hq, Hi, Hl, Hp, Hd, Ha.
  cbn [str_truthy]. rewrite bind_Ok_l.
  do 7 rewrite Hcat, bind_Ok_l.
  unfold contact_filter at 1. rewrite Hc, decide_True by done. rewrite bind_Ok_l.
  unfold interview_filter at 1. rewrite Hv, decide_True by done. rewrite bind_Ok_l.
  unfold age_filter at 1. rewrite Hage, bind_Ok_l.
  unfold view_mode_filter. by rewrite !decide_False by done.
Qed.

Lemma apply_filters_nothing_chosen_witness :
  apply_filters sample_to_datetime sample_today never_contains
    (run (UploadFile (Ok rated_raw)) initial_state) rated_df no_filters
  = Ok rated_df.
Proof.
  apply (apply_filters_nothing_chosen sample_to_datetime sample_today never_contains).
  reflexivity.
Defined.
